(** * GraphSense Maltego transforms: currency detection, request
      classification, entity projection and error formatting

    A shallow embedding of [api/utils.py], [transforms/utils.py] and the
    transforms [ToCluster], [ToTags] and [ToDetails].

    Conventions of the embedding.
    - A Python [str] is a [string]; a character is a code point below 256.
    - A [dict] with string keys is a [gmap string _]; the properties of a
      request are text, as the host delivers them.
    - The Maltego response object is an append-only store of entities; the
      object returned by [addEntity] is a reference into that store, and the
      entity methods mutate the stored object through the reference.
    - Python's float quotient [n / factor] is the exact rational quotient;
      binary64 rounding is outside the embedding ([binary64_truediv] gives
      the rounded quotient of two integers for comparison).
    - The GraphSense backend is a parameter of the lookups and of the
      transforms: a record of what each call returns or raises.
    - CPython's configurable cap on the number of digits accepted by [int]
      (4300 by default) is left out: [int] parses any digit string. *)

From Stdlib Require Import ZArith NArith QArith Ascii String List Bool Lia.
From Stdlib Require Import SpecFloat.
From stdpp Require Import base option strings list gmap pretty.

Local Open Scope string_scope.
Local Open Scope list_scope.

(** ** Characters and strings *)

Module Str.

Definition code (c : ascii) : N := N_of_ascii c.

(** [lo <= c <= hi] on code points, as in a character-class range [lo-hi]. *)
Definition between (lo hi c : ascii) : bool :=
  ((code lo <=? code c) && (code c <=? code hi))%N.

Definition in_ranges (rs : list (ascii * ascii)) (c : ascii) : bool :=
  existsb (fun r => between (fst r) (snd r) c) rs.

Definition is_digit (c : ascii) : bool := between "0" "9" c.

(** [needle in hay] for strings. *)
Fixpoint contains (needle hay : string) : bool :=
  String.prefix needle hay ||
  match hay with
  | EmptyString => false
  | String _ hay' => contains needle hay'
  end.

(** [s.replace(a, b)] for single characters. *)
Fixpoint replace_char (a b : ascii) (s : string) : string :=
  match s with
  | EmptyString => EmptyString
  | String c s' => String (if Ascii.eqb c a then b else c) (replace_char a b s')
  end.

(** [s[n:]] *)
Fixpoint drop (n : nat) (s : string) : string :=
  match n, s with
  | O, _ => s
  | S n', String _ s' => drop n' s'
  | S _, EmptyString => EmptyString
  end.

(** Truth value of a string: non-empty. *)
Definition truthy (s : string) : bool :=
  match s with EmptyString => false | String _ _ => true end.

End Str.

(** ** Regular expressions ([re.search])

    The fragment of Python's [re] syntax that the address patterns use:
    word boundaries, character classes, literals, sequence, alternation,
    optional groups and bounded repetition.  None of the patterns has
    back-references or look-around, so [re.search] finds a match exactly when
    some start position admits some path through the pattern; the matcher
    below computes all end positions. *)

Module Re.

Inductive regex : Type :=
| Bound                                  (* \b *)
| Chars (rs : list (ascii * ascii))      (* [...] *)
| Lit (s : string)                       (* literal text *)
| Seq (r1 r2 : regex)                    (* r1 r2 *)
| Alt (r1 r2 : regex)                    (* r1|r2 *)
| Opt (r : regex)                        (* (r)? *)
| Rep (r : regex) (lo hi : nat).         (* r{lo,hi} *)

(** A position in the subject: the character before it, and the rest. *)
Record cursor : Type := Cursor { before : option ascii; rest : string }.

(** [\w] of a [str] pattern: alphanumeric code points and the underscore. *)
Definition is_word (c : ascii) : bool :=
  Str.in_ranges
    [ ("0", "9"); ("A", "Z"); ("a", "z"); ("_", "_");
      ("170", "170"); ("178", "179"); ("181", "181"); ("185", "186");
      ("188", "190"); ("192", "214"); ("216", "246"); ("248", "255") ]%char c.

Definition word_before (c : cursor) : bool :=
  match before c with Some a => is_word a | None => false end.

Definition word_after (c : cursor) : bool :=
  match rest c with String a _ => is_word a | EmptyString => false end.

Definition at_boundary (c : cursor) : bool :=
  xorb (word_before c) (word_after c).

Definition eat_class (rs : list (ascii * ascii)) (c : cursor) : list cursor :=
  match rest c with
  | String a s => if Str.in_ranges rs a then [Cursor (Some a) s] else []
  | EmptyString => []
  end.

Fixpoint eat_lit (s : string) (c : cursor) : list cursor :=
  match s with
  | EmptyString => [c]
  | String x s' =>
      match rest c with
      | String a t => if Ascii.eqb a x then eat_lit s' (Cursor (Some a) t) else []
      | EmptyString => []
      end
  end.

Section Repeat.
Variable step : cursor -> list cursor.

(** exactly [n] iterations *)
Fixpoint times (n : nat) (cs : list cursor) : list cursor :=
  match n with
  | O => cs
  | S n' => times n' (flat_map step cs)
  end.

(** between 0 and [n] iterations *)
Fixpoint upto (n : nat) (cs : list cursor) : list cursor :=
  match n with
  | O => cs
  | S n' => cs ++ upto n' (flat_map step cs)
  end.
End Repeat.

(** All positions at which a match of [r] starting at [c] can end. *)
Fixpoint run (r : regex) (c : cursor) : list cursor :=
  match r with
  | Bound => if at_boundary c then [c] else []
  | Chars rs => eat_class rs c
  | Lit s => eat_lit s c
  | Seq r1 r2 => flat_map (run r2) (run r1 c)
  | Alt r1 r2 => run r1 c ++ run r2 c
  | Opt r1 => run r1 c ++ [c]
  | Rep r1 lo hi => upto (run r1) (hi - lo) (times (run r1) lo [c])
  end.

(** Every position of the subject, first to last. *)
Fixpoint cursors (prev : option ascii) (s : string) : list cursor :=
  Cursor prev s ::
  match s with
  | EmptyString => []
  | String a s' => cursors (Some a) s'
  end.

Definition matches_at (r : regex) (c : cursor) : bool :=
  match run r c with [] => false | _ :: _ => true end.

(** [re.search(r, s)] is not [None]. *)
Definition search (r : regex) (s : string) : bool :=
  existsb (matches_at r) (cursors None s).

End Re.

Import Re.

Declare Scope regex_scope.
Delimit Scope regex_scope with re.
Infix "⋅" := Seq (at level 40, left associativity) : regex_scope.
Infix "∣" := Alt (at level 50, left associativity) : regex_scope.

(** ** Currency configuration *)

Record profile : Type := Profile {
  conf_type : string;    (* "type": Maltego entity type of an address *)
  conf_factor : Q;       (* "factor": smallest units per display unit *)
  conf_label : string    (* "label": name of the smallest unit *)
}.

Definition e8 : Q := 100000000 # 1.
Definition e18 : Q := 1000000000000000000 # 1.

Definition CURRENCY_CONFIG : gmap string profile :=
  <["btc" := Profile "maltego.BTCAddress" e8 "Satoshi"]> (
  <["bch" := Profile "maltego.BCHAddress" e8 "Satoshi"]> (
  <["ltc" := Profile "maltego.LTCAddress" e8 "Litoshi"]> (
  <["zec" := Profile "maltego.ZECAddress" e8 "Zatoshi"]> (
  <["eth" := Profile "maltego.ETHAddress" e18 "Wei"]> ∅)))).

(** ** Currency detector *)

Definition base58 : regex :=
  Chars [("a","k"); ("m","z"); ("A","H"); ("J","N"); ("P","Z"); ("1","9")]%char.

Definition bech32 : regex :=
  Chars [("a","a"); ("c","h"); ("j","n"); ("p","z"); ("0","0"); ("2","9")]%char.

Definition alnum : regex := Chars [("0","9"); ("a","z"); ("A","Z")]%char.
Definition hex : regex := Chars [("0","9"); ("a","f"); ("A","F")]%char.

(** [\b([13][a-km-zA-HJ-NP-Z1-9]{25,34})|bc(0([ac-hj-np-z02-9]{39}|[ac-hj-np-z02-9]{59})|1[ac-hj-np-z02-9]{8,87})\b] *)
Definition btc_re : regex :=
  ( Bound ⋅ (Chars [("1","1"); ("3","3")]%char ⋅ Rep base58 25 34)
  ∣ Lit "bc" ⋅ ( Lit "0" ⋅ (Rep bech32 39 39 ∣ Rep bech32 59 59)
               ∣ Lit "1" ⋅ Rep bech32 8 87 ) ⋅ Bound )%re.

(** [\b((?:bitcoincash|bchtest):)?([0-9a-zA-Z]{34})\b] *)
Definition bch_re : regex :=
  ( Bound ⋅ Opt ((Lit "bitcoincash" ∣ Lit "bchtest") ⋅ Lit ":")
          ⋅ Rep alnum 34 34 ⋅ Bound )%re.

(** [\b[LM3][a-km-zA-HJ-NP-Z1-9]{25,33}\b] *)
Definition ltc_re : regex :=
  ( Bound ⋅ Chars [("L","M"); ("3","3")]%char ⋅ Rep base58 25 33 ⋅ Bound )%re.

(** [\b[tz][13][a-km-zA-HJ-NP-Z1-9]{33}\b] *)
Definition zec_re : regex :=
  ( Bound ⋅ Chars [("t","t"); ("z","z")]%char
          ⋅ Chars [("1","1"); ("3","3")]%char ⋅ Rep base58 33 33 ⋅ Bound )%re.

(** [\b(0x)?[0-9a-fA-F]{40}\b] *)
Definition eth_re : regex :=
  ( Bound ⋅ Opt (Lit "0x") ⋅ Rep hex 40 40 ⋅ Bound )%re.

(** [currencies.append(c)] when the pattern is found. *)
Definition append_if (b : bool) (c : string) (currencies : list string) :=
  if b then currencies ++ [c] else currencies.

Definition get_currency (address : string) : list string * string :=
  let currencies := [] in
  let currencies := append_if (search btc_re address) "btc" currencies in
  let currencies := append_if (search bch_re address) "bch" currencies in
  let currencies := append_if (search ltc_re address) "ltc" currencies in
  let currencies := append_if (search zec_re address) "zec" currencies in
  let currencies := append_if (search eth_re address) "eth" currencies in
  match currencies with
  | [] => ([], "Currency not supported")
  | _ :: _ => (currencies, "")
  end.


(** Marker keys of host-typed entities, in the order they are probed. *)
Definition marker_keys : list (string * string) :=
  [("BTCAddress", "btc"); ("BCHAddress", "bch"); ("LTCAddress", "ltc");
   ("ZECAddress", "zec"); ("ETHAddress", "eth")].

(** [key in d] *)
Definition has_key {V} (key : string) (d : gmap string V) : bool :=
  match d !! key with Some _ => true | None => false end.

(** Truth value of [d.get(key)]: present and non-empty. *)
Definition truthy_opt (v : option string) : bool :=
  match v with Some s => Str.truthy s | None => false end.

Definition get_currency_from_entity_details
    (entity_details : gmap string string) : list string * string :=
  match find (fun kc => has_key (fst kc) entity_details) marker_keys with
  | Some (_, curr) => ([curr], "")
  | None =>
      match entity_details !! "properties.cryptocurrencyaddress" with
      | Some address =>
          if Str.truthy address then get_currency address
          else ([], "No address or currency found in entity details")
      | None => ([], "No address or currency found in entity details")
      end
  end.

(** ** Python's [int(str)] and [str(int)] *)

Module PyInt.

(** Characters skipped around the digits: ASCII white space, and the two
    non-ASCII spaces below 256, which [int] turns into blanks first. *)
Definition is_space (c : ascii) : bool :=
  Str.in_ranges [("009", "013"); (" ", " "); ("133", "133"); ("160", "160")]%char c.

Fixpoint all_space (s : string) : bool :=
  match s with
  | EmptyString => true
  | String c s' => is_space c && all_space s'
  end.

Fixpoint lstrip (s : string) : string :=
  match s with
  | EmptyString => EmptyString
  | String c s' => if is_space c then lstrip s' else s
  end.

Definition digit_value (c : ascii) : Z := Z.of_N (Str.code c) - 48.

(** Decimal digits, single underscores allowed between two digits, then
    optional trailing space.  [after_digit] tells whether the character just
    read was a digit; [acc] is the value read so far. *)
Fixpoint digits (s : string) (acc : Z) (after_digit : bool) : option Z :=
  match s with
  | EmptyString => if after_digit then Some acc else None
  | String c s' =>
      if Str.is_digit c then digits s' (10 * acc + digit_value c) true
      else if Ascii.eqb c "_" then
        if after_digit then digits s' acc false else None
      else if after_digit && all_space s then Some acc
      else None
  end.

(** [int(s)] in base 10; [None] stands for [ValueError]. *)
Definition of_string (s : string) : option Z :=
  match lstrip s with
  | String "-" s' => Z.opp <$> digits s' 0 false
  | String "+" s' => digits s' 0 false
  | s' => digits s' 0 false
  end.

(** [int(val)] for the result of [dict.get]; [int(None)] is a [TypeError]. *)
Definition of_value (val : option string) : option Z :=
  match val with
  | Some s => of_string s
  | None => None
  end.

(** [str(n)] *)
Definition to_string (n : Z) : string := pretty n.

End PyInt.

(** ** Request classifier *)

(** [a or b] on the results of [dict.get]. *)
Definition py_or (a b : option string) : option string :=
  if truthy_opt a then a else b.

Definition extract_address_and_currencies (properties : gmap string string)
    : option string * list string * option string :=
  (* Handle Cluster/Wallet ID *)
  if has_key "cryptocurrency.wallet.name" properties || has_key "cluster_ID" properties then
    let val := py_or (properties !! "cryptocurrency.wallet.name")
                     (properties !! "cluster_ID") in
    match PyInt.of_value val with
    | None => (None, [], Some "Invalid Cluster/Wallet ID format (expected integer)")
    | Some n =>
        let address := PyInt.to_string n in
        match properties !! "currency" with
        | Some currency =>
            if Str.truthy currency then (Some address, [currency], None)
            else (None, [], Some "Cluster found but currency is missing")
        | None => (None, [], Some "Cluster found but currency is missing")
        end
    end
  else
  (* Handle Standard Address *)
  match properties !! "properties.cryptocurrencyaddress" with
  | None => (None, [], Some "No cryptocurrency address found in properties")
  | Some address =>
      if negb (Str.truthy address) then
        (None, [], Some "No cryptocurrency address found in properties")
      else
        match properties !! "currency" with
        | Some currency => (Some address, [currency], None)
        | None =>
            (* Auto-detect currency *)
            let '(currencies, error) := get_currency_from_entity_details properties in
            if Str.truthy error then (Some address, [], Some error)
            else (Some address, currencies, None)
        end
  end.


(** ** Backend records

    Attributes the code reads unconditionally are fields; attributes it probes
    with [hasattr] or [getattr] are optional. *)

(** A value handed to the host: text, integer, display-unit number, or the
    date-time of a Unix timestamp. *)
Inductive value : Type :=
| VStr (s : string)
| VInt (z : Z)
| VNum (q : Q)
| VDate (timestamp : Z).

Record fiat : Type := Fiat { fiat_code : string; fiat_value : Q }.

Record amount : Type := Amount { amount_value : Z; fiat_values : list fiat }.

Record tx : Type := Tx { timestamp : Z }.

(** The primary record of a lookup: an address record has [address], a
    cluster record has not. *)
Record record : Type := Record_ {
  address : option string;
  entity : Z;
  no_addresses : Z;
  balance : amount;
  total_received : amount;
  total_spent : amount;
  no_incoming_txs : Z;
  no_outgoing_txs : Z;
  first_tx : option tx;
  last_tx : option tx
}.

(** An attribute of an opaque object: missing, [None], or a value. *)
Inductive attr (A : Type) : Type :=
| Absent
| Null
| Val (a : A).
Arguments Absent {A}.
Arguments Null {A}.
Arguments Val {A} a.

(** [hasattr(o, name)] *)
Definition hasattr {A} (x : attr A) : bool :=
  match x with Absent => false | _ => true end.

(** [getattr(o, name, default)]; the result is [None] for Python's [None]. *)
Definition getattr {A} (x : attr A) (default : option A) : option A :=
  match x with
  | Absent => default
  | Null => None
  | Val a => Some a
  end.

Record tag : Type := Tag {
  label : attr string;
  category : attr string;
  source : attr string;
  tagpack_creator : attr string;
  tagpack_title : attr string;
  abuse : attr string;
  confidence_level : attr value
}.

(** The tag collection of a lookup: an object that may expose
    [address_tags] or [entity_tags], or a plain list. *)
Inductive tags_obj : Type :=
| TagsObject (address_tags entity_tags : attr (list tag))
| TagsList (l : list tag).

(** [hasattr(tags_obj, name) and tags_obj.name] *)
Definition nonempty_attr (x : attr (list tag)) : bool :=
  match x with Val (_ :: _) => true | _ => false end.

Definition has_address_tags (t : tags_obj) : bool :=
  match t with TagsObject a _ => nonempty_attr a | TagsList _ => false end.

Definition has_entity_tags (t : tags_obj) : bool :=
  match t with TagsObject _ e => nonempty_attr e | TagsList _ => false end.

(** ** Host objects: entities and the response *)

Inductive OverlayPosition : Type := NORTH_WEST | WEST | SOUTH_WEST.
Inductive OverlayType : Type := IMAGE | TEXT.
Inductive UIMessageType : Type := UIM_PARTIAL | UIM_INFORM.

(** One [addProperty] call; an argument that is not passed is [None]. *)
Record property : Type := Property {
  fieldName : string;
  displayName : option string;
  matchingRule : option string;
  propertyValue : value
}.

Record overlay : Type := Overlay {
  overlayContent : value;
  overlayPosition : OverlayPosition;
  overlayType : OverlayType
}.

Record MaltegoEntity : Type := Entity {
  entityType : string;
  entityValue : string;
  properties : list property;
  overlays : list overlay;
  linkLabel : option string;
  iconURL : option string;
  displayInformation : list (string * string);
  weight : option Z
}.

Record MaltegoTransform : Type := Response {
  entities : list MaltegoEntity;
  UIMessages : list (string * UIMessageType)
}.

(** *** Entity methods *)

Definition addProperty (name : string) (display matching : option string)
    (v : value) (e : MaltegoEntity) : MaltegoEntity :=
  Entity (entityType e) (entityValue e)
         (properties e ++ [Property name display matching v])
         (overlays e) (linkLabel e) (iconURL e) (displayInformation e) (weight e).

Definition addOverlay (content : value) (pos : OverlayPosition) (ty : OverlayType)
    (e : MaltegoEntity) : MaltegoEntity :=
  Entity (entityType e) (entityValue e) (properties e)
         (overlays e ++ [Overlay content pos ty])
         (linkLabel e) (iconURL e) (displayInformation e) (weight e).

Definition setLinkLabel (l : string) (e : MaltegoEntity) : MaltegoEntity :=
  Entity (entityType e) (entityValue e) (properties e) (overlays e)
         (Some l) (iconURL e) (displayInformation e) (weight e).

Definition setIconURL (u : string) (e : MaltegoEntity) : MaltegoEntity :=
  Entity (entityType e) (entityValue e) (properties e) (overlays e)
         (linkLabel e) (Some u) (displayInformation e) (weight e).

Definition addDisplayInformation (content title : string) (e : MaltegoEntity)
    : MaltegoEntity :=
  Entity (entityType e) (entityValue e) (properties e) (overlays e)
         (linkLabel e) (iconURL e) (displayInformation e ++ [(content, title)])
         (weight e).

Definition setWeight (w : Z) (e : MaltegoEntity) : MaltegoEntity :=
  Entity (entityType e) (entityValue e) (properties e) (overlays e)
         (linkLabel e) (iconURL e) (displayInformation e) (Some w).

(** The last property recorded under a name, as the host sees it. *)
Definition get_property (name : string) (e : MaltegoEntity) : option property :=
  find (fun p => String.eqb (fieldName p) name) (rev (properties e)).

(** *** Computations on the response

    A computation threads the response and either returns or raises. *)

Inductive exn : Type := AttributeError.

Inductive outcome (A : Type) : Type :=
| Return (a : A)
| Raise (e : exn).
Arguments Return {A} a.
Arguments Raise {A} e.

Definition M (A : Type) : Type := MaltegoTransform -> outcome A * MaltegoTransform.

Definition ret {A} (a : A) : M A := fun r => (Return a, r).

Definition raise {A} (e : exn) : M A := fun r => (Raise e, r).

Definition bind {A B} (m : M A) (k : A -> M B) : M B :=
  fun r =>
    match m r with
    | (Return a, r') => k a r'
    | (Raise e, r') => (Raise e, r')
    end.

Declare Scope py_scope.
Delimit Scope py_scope with py.
Notation "x <- m ;; k" := (bind m (fun x => k))
  (at level 100, m at next level, right associativity) : py_scope.
Notation "m ;; k" := (bind m (fun _ => k))
  (at level 100, right associativity) : py_scope.
Local Open Scope py_scope.

(** A reference to an entity of the response. *)
Definition ref : Type := nat.

(** [response.addEntity(type, value)]: the new entity is stored in the
    response and a reference to it is returned. *)
Definition addEntity (ty v : string) : M ref :=
  fun r =>
    (Return (length (entities r)),
     Response (entities r ++ [Entity ty v [] [] None None [] None]) (UIMessages r)).

(** [entity.method(...)]: the stored entity is updated in place. *)
Definition call (e : ref) (method : MaltegoEntity -> MaltegoEntity) : M unit :=
  fun r => (Return tt, Response (alter method e (entities r)) (UIMessages r)).

(** [response.addUIMessage(msg, kind)] *)
Definition addUIMessage (msg : string) (kind : UIMessageType) : M unit :=
  fun r => (Return tt, Response (entities r) (UIMessages r ++ [(msg, kind)])).

(** Attribute access on the primary record, which may be [None]. *)
Definition deref (obj : option record) : M record :=
  match obj with
  | Some d => ret d
  | None => raise AttributeError
  end.

Definition when (b : bool) (m : M unit) : M unit := if b then m else ret tt.

Fixpoint for_each {A} (l : list A) (body : A -> M unit) : M unit :=
  match l with
  | [] => ret tt
  | x :: l' => body x ;; for_each l' body
  end.

(** ** Entity projector *)

(** [n / factor] *)
Definition truediv (n : Z) (factor : Q) : Q := Qred (inject_Z n / factor).

(** For comparison, the binary64 number [m * 2^e], rounded to nearest even,
    and the binary64 quotient of two integers. *)
Definition binary64 (m e : Z) : spec_float := binary_normalize 53 1024 m e false.

Definition binary64_truediv (n factor : Z) : spec_float :=
  SFdiv 53 1024 (binary64 n 0) (binary64 factor 0).

(** [str(x)] inside an f-string, for an optional string. *)
Definition fmt (x : option string) : string :=
  match x with Some s => s | None => "None" end.

(** [int(x)] for a value handed over by the backend; [None] stands for the
    exception that the caller swallows. *)
Definition int_of_value (v : value) : option Z :=
  match v with
  | VStr s => PyInt.of_string s
  | VInt z => Some z
  | VNum q => Some (Z.quot (Qnum q) (Z.pos (Qden q)))
  | VDate _ => None
  end.

Definition dquote : string := String "034"%char EmptyString.

Definition _add_common_properties (ent : ref) (details : record)
    (currency : string) : M unit :=
  let factor :=
    match CURRENCY_CONFIG !! currency with
    | Some conf => conf_factor conf
    | None => e8
    end in
  let balance := balance details in
  let total_received := total_received details in
  let total_spent := total_spent details in
  (* Basic Props *)
  call ent (addProperty "final_balance"
                 (Some ("Final balance (" +:+ currency +:+ ")")) None
                 (VNum (truediv (amount_value balance) factor))) ;;
  match fiat_values balance with
  | fiat :: _ =>
      call ent (addProperty "final_balance_fiat"
                     (Some ("Final balance (" +:+ fiat_code fiat +:+ ")")) None
                     (VNum (fiat_value fiat)))
  | [] => ret tt
  end ;;
  call ent (addProperty "total_received" (Some "Total received") None
                 (VNum (truediv (amount_value total_received) factor))) ;;
  call ent (addProperty "total_sent" (Some "Total sent") None
                 (VNum (truediv (amount_value total_spent) factor))) ;;
  call ent (addProperty "total_throughput" (Some "Total throughput") None
                 (VNum (truediv (amount_value total_received + amount_value total_spent)
                                factor))) ;;
  (* Tx Counts *)
  call ent (addProperty "num_transactions" (Some "Number of transactions") None
                 (VInt (no_incoming_txs details + no_outgoing_txs details))) ;;
  call ent (addProperty "num_in_transactions"
                 (Some "Number of incoming transactions") None
                 (VInt (no_incoming_txs details))) ;;
  call ent (addProperty "num_out_transactions"
                 (Some "Number of outgoing transactions") None
                 (VInt (no_outgoing_txs details))) ;;
  (* Dates *)
  match first_tx details with
  | Some t =>
      call ent (addProperty "First_tx" (Some "First transaction (UTC)") None
                     (VDate (timestamp t)))
  | None => ret tt
  end ;;
  match last_tx details with
  | Some t =>
      call ent (addProperty "Last_tx" (Some "Last transaction (UTC)") None
                     (VDate (timestamp t)))
  | None => ret tt
  end.

Definition safe_add_prop (ent : ref) (name : string) (v : option string)
    (matching : string) : M unit :=
  match v with
  | Some s =>
      call ent (addProperty name (Some (Str.replace_char "_" " " name))
                     (Some matching) (VStr s))
  | None => ret tt
  end.

(** The [query_type == "details"] branch. *)
Definition project_details (obj : option record) (tags_obj : tags_obj)
    (conf : profile) (currency : string) : M (option ref * string) :=
  d <- deref obj ;;
  ent <-
    match address d with
    | None =>
        (* is_cluster *)
        ent <- addEntity "maltego.CryptocurrencyWallet" (PyInt.to_string (entity d)) ;;
        call ent (addProperty "num_addresses" (Some "Number of addresses") None
                       (VInt (no_addresses d))) ;;
        ret ent
    | Some a =>
        ent <- addEntity (conf_type conf) a ;;
        call ent (addProperty "currency" (Some "Currency") None (VStr currency)) ;;
        call ent (addProperty "cluster_ID" (Some "Cluster ID") (Some "loose")
                       (VInt (entity d))) ;;
        ret ent
    end ;;
  _add_common_properties ent d currency ;;
  (* Overlay logic *)
  let has_tags :=
    if has_address_tags tags_obj then true
    else if has_entity_tags tags_obj then true
    else false in
  when has_tags
    (call ent (addOverlay (VStr "Businessman") NORTH_WEST IMAGE)) ;;
  ret (Some ent, "").

(** The [query_type == "cluster"] branch. *)
Definition project_cluster (obj : option record) (tags_obj : tags_obj)
    (conf : profile) (currency : string) : M (option ref * string) :=
  d <- deref obj ;;
  ent <- addEntity "maltego.CryptocurrencyWallet" (PyInt.to_string (entity d)) ;;
  call ent (setLinkLabel ("To Cluster [GraphSense] (" +:+ currency +:+ ")")) ;;
  call ent (addProperty "cryptocurrency.wallet.name" None None
                 (VStr (PyInt.to_string (entity d)))) ;;
  call ent (addProperty "cluster_ID" (Some "Cluster ID") None
                 (VStr (PyInt.to_string (entity d)))) ;;
  call ent (addProperty "currency" (Some "Currency") (Some "strict") (VStr currency)) ;;
  call ent (addProperty "Number_addresses" (Some "Number of Addresses") None
                 (VInt (no_addresses d))) ;;
  _add_common_properties ent d currency ;;
  call ent (addOverlay (VInt (no_addresses d)) SOUTH_WEST TEXT) ;;
  (* Use simple logic for icons *)
  let icon_name := Str.drop 8 (conf_type conf) in
  let icon_name :=
    if String.eqb icon_name "ZECAddress" then "zcash_icon_fullcolor" else icon_name in
  call ent (addOverlay (VStr icon_name) WEST IMAGE) ;;
  when (has_address_tags tags_obj || has_entity_tags tags_obj)
    (call ent (addOverlay (VStr "Businessman") NORTH_WEST IMAGE)) ;;
  ret (Some ent, "").

(** The tag list that the tags branch iterates over; [None] is Python's
    [None], found when the attribute exists but holds no list. *)
Definition extract_tags (tags_obj : tags_obj) : option (list tag) :=
  match tags_obj with
  | TagsObject address_tags entity_tags =>
      if hasattr address_tags then getattr address_tags None
      else if hasattr entity_tags then getattr entity_tags None
      else Some []
  | TagsList l => Some l
  end.

(** The body of [for tag in tags]. *)
Definition project_tag (currency : string) (tag : tag) : M unit :=
  let label := getattr (label tag) None in
  ent <-
    (if truthy_opt label then
       addEntity "maltego.CryptocurrencyOwner" (fmt label)
     else
       let creator := getattr (tagpack_creator tag) (Some "Unknown") in
       ent <- addEntity "maltego.CryptocurrencyOwner"
                   ("Undisclosed, contact: " +:+ fmt creator) ;;
       call ent (setIconURL "Unknown") ;;
       ret ent) ;;
  call ent (setLinkLabel ("To tags [GraphSense] (" +:+ currency +:+ ")")) ;;
  (* Map properties safely *)
  safe_add_prop ent "OwnerType" (getattr (category tag) None) "loose" ;;
  safe_add_prop ent "Source_URI" (getattr (source tag) None) "loose" ;;
  when (hasattr (source tag) && truthy_opt (getattr (source tag) None))
    (let src := fmt (getattr (source tag) None) in
     call ent (addDisplayInformation
                    ("<a href=" +:+ dquote +:+ src +:+ dquote +:+ ">" +:+ src +:+ "</a>")
                    "Source URI")) ;;
  safe_add_prop ent "tagpack_creator" (getattr (tagpack_creator tag) None) "strict" ;;
  safe_add_prop ent "tagpack_title" (getattr (tagpack_title tag) None) "loose" ;;
  safe_add_prop ent "Abuse_type" (getattr (abuse tag) None) "loose" ;;
  safe_add_prop ent "Category" (getattr (category tag) None) "loose" ;;
  match getattr (confidence_level tag) None with
  | Some conf_level =>
      call ent (addProperty "Confidence_level" (Some "Confidence Level")
                     (Some "loose") conf_level) ;;
      match int_of_value conf_level with
      | Some w => call ent (setWeight w)
      | None => ret tt
      end
  | None => ret tt
  end.

(** The [query_type in ["tags", "entity_tags"]] branch. *)
Definition project_tags (tags_obj : tags_obj) (currency : string)
    : M (option ref * string) :=
  match extract_tags tags_obj with
  | Some (t :: ts) =>
      for_each (t :: ts) (project_tag currency) ;;
      ret (None, "")
  | _ => ret (None, "No attribution tags found for this query in " +:+ currency)
  end.

Definition create_entity_with_details
    (api_result : option record * tags_obj * string)
    (currency query_type : string) : M (option ref * string) :=
  let '(obj, tags_obj, error) := api_result in
  if Str.truthy error then ret (None, error)
  else
    match CURRENCY_CONFIG !! currency with
    | None => ret (None, "Unsupported currency: " +:+ currency)
    | Some conf =>
        if String.eqb query_type "details" then
          project_details obj tags_obj conf currency
        else if String.eqb query_type "cluster" then
          project_cluster obj tags_obj conf currency
        else if String.eqb query_type "tags" || String.eqb query_type "entity_tags" then
          project_tags tags_obj currency
        else ret (None, "Unknown query type: " +:+ query_type)
    end.

(** ** Error formatter *)

Definition nl : string := String "010"%char EmptyString.

Definition error_message (currency query_type address error : string) : string :=
  if Str.contains "504 Bad Gateway" error then
    nl +:+ "GraphSense server 504 error during " +:+ query_type +:+ " for "
       +:+ currency +:+ " on " +:+ address +:+ nl
  else if Str.contains "(404)" error then
    nl +:+ "Nothing found in " +:+ currency +:+ " for: " +:+ address +:+ nl
  else
    "Error (" +:+ currency +:+ "): " +:+ error.

Definition set_maltego_transformation_error
    (currency query_type address error : string) : M unit :=
  let msg := error_message currency query_type address error in
  addUIMessage msg UIM_PARTIAL.

(** ** Backend gateway

    The backend client is a parameter: what each of its calls does, returning
    a value or raising.  [ApiException] is the fault that the backend library
    declares; any other exception is [OtherException]; both carry the text
    of [str(e)].  [get_api_client] stands for building the client from the
    configuration file and entering the [with] block.  Leaving the [with]
    block is taken not to raise, and exceptions outside [Exception] are
    left out. *)

Inductive call_result (A : Type) : Type :=
| Returned (a : A)
| ApiException (text : string)
| OtherException (text : string).
Arguments Returned {A} a.
Arguments ApiException {A} text.
Arguments OtherException {A} text.

(** The identifier handed to a lookup is the one the classifier returned. *)
Record backend : Type := Backend {
  get_api_client : call_result unit;
  get_address : string → option string → call_result record;
  list_tags_by_address : string → option string → call_result tags_obj;
  get_entity : string → Z → call_result record;
  list_address_tags_by_entity : string → Z → call_result tags_obj
}.

(** The next statement of a [try] block runs when the one before returned. *)
Definition and_then {A B} (c : call_result A) (k : A → call_result B)
    : call_result B :=
  match c with
  | Returned a => k a
  | ApiException text => ApiException text
  | OtherException text => OtherException text
  end.

Definition get_address_details (api : backend) (currency : string)
    (address : option string) : option record * tags_obj * string :=
  match
    and_then (get_api_client api) (λ _,
    and_then (get_address api currency address) (λ address_obj,
    and_then (list_tags_by_address api currency address) (λ tags,
    Returned (address_obj, tags))))
  with
  | Returned (address_obj, tags) => (Some address_obj, tags, "")
  | ApiException e => (None, TagsList [], "GraphSense API error (Address): " +:+ e)
  | OtherException e => (None, TagsList [], "Unexpected error: " +:+ e)
  end.

Definition get_entity_details (api : backend) (currency : string)
    (entity_id : Z) : option record * tags_obj * string :=
  match
    and_then (get_api_client api) (λ _,
    and_then (get_entity api currency entity_id) (λ entity_obj,
    and_then (list_address_tags_by_entity api currency entity_id) (λ tags,
    Returned (entity_obj, tags))))
  with
  | Returned (entity_obj, tags) => (Some entity_obj, tags, "")
  | ApiException e => (None, TagsList [], "GraphSense API error (Entity): " +:+ e)
  | OtherException e => (None, TagsList [], "Unexpected error: " +:+ e)
  end.

(** ** Transforms *)

(** An exception that leaves [create_entities]: one of the projector, or the
    [ValueError] or [TypeError] of [int(address)]. *)
Inductive escaped : Type :=
| FromProjector (e : exn)
| ValueError
| TypeError.

(** A run of a transform on the response: [None] when it returns. *)
Definition T : Type := MaltegoTransform → option escaped * MaltegoTransform.

Definition lift (m : M unit) : T :=
  fun r =>
    match m r with
    | (Return _, r') => (None, r')
    | (Raise e, r') => (Some (FromProjector e), r')
    end.

Definition escape (e : escaped) : T := fun r => (Some e, r).

(** [for currency in currencies: body] *)
Fixpoint for_currencies (currencies : list string) (body : string → T) : T :=
  match currencies with
  | [] => fun r => (None, r)
  | currency :: rest =>
      fun r =>
        match body currency r with
        | (None, r') => for_currencies rest body r'
        | (Some e, r') => (Some e, r')
        end
  end.

(** [int(address)] in a transform. *)
Definition int_address (address : option string) : Z + escaped :=
  match address with
  | None => inr TypeError
  | Some s =>
      match PyInt.of_string s with
      | Some n => inl n
      | None => inr ValueError
      end
  end.

(** The end of the loop body, the same in the three transforms: report the
    error of the lookup, or project the result and report the error of the
    projection. *)
Definition report_or_project (api_result : option record * tags_obj * string)
    (currency query_type : string) (address : option string) : M unit :=
  let '(obj, tags, api_error) := api_result in
  if Str.truthy api_error then
    set_maltego_transformation_error currency query_type (fmt address) api_error
  else
    res <- create_entity_with_details (obj, tags, "") currency query_type ;;
    let err := snd res in
    if Str.truthy err then
      set_maltego_transformation_error currency query_type (fmt address) err
    else ret tt.

(** [is_wallet] *)
Definition is_wallet (properties : gmap string string) : bool :=
  has_key "cryptocurrency.wallet.name" properties || has_key "cluster_ID" properties.

Module ToCluster.
Definition create_entities (api : backend) (properties : gmap string string) : T :=
  let query_type := "cluster" in
  let '(address, currencies, error) := extract_address_and_currencies properties in
  if truthy_opt error then lift (addUIMessage (fmt error) UIM_INFORM)
  else
    for_currencies currencies (λ currency,
      lift (report_or_project (get_address_details api currency address)
              currency query_type address)).
End ToCluster.

Module ToTags.
Definition create_entities (api : backend) (properties : gmap string string) : T :=
  let '(address, currencies, error) := extract_address_and_currencies properties in
  if truthy_opt error then lift (addUIMessage (fmt error) UIM_INFORM)
  else
    let is_wallet := is_wallet properties in
    let query_type := if is_wallet then "entity_tags" else "tags" in
    for_currencies currencies (λ currency,
      if is_wallet then
        match int_address address with
        | inl entity_id =>
            lift (report_or_project (get_entity_details api currency entity_id)
                    currency query_type address)
        | inr e => escape e
        end
      else
        lift (report_or_project (get_address_details api currency address)
                currency query_type address)).
End ToTags.

Module ToDetails.
Definition create_entities (api : backend) (properties : gmap string string) : T :=
  let query_type := "details" in
  let '(address, currencies, error) := extract_address_and_currencies properties in
  if truthy_opt error then lift (addUIMessage (fmt error) UIM_INFORM)
  else
    for_currencies currencies (λ currency,
      (* If it's a numeric ID, it's a wallet/entity *)
      let is_wallet := is_wallet properties in
      if is_wallet then
        match int_address address with
        | inl entity_id =>
            lift (report_or_project (get_entity_details api currency entity_id)
                    currency query_type address)
        | inr e => escape e
        end
      else
        lift (report_or_project (get_address_details api currency address)
                currency query_type address)).
End ToDetails.

(** * Vocabulary of the properties, and sample inputs *)

(** ** Vocabulary: Currency detector *)

(** The five format patterns, in the order [get_currency] tests them. *)
Definition patterns : list (string * regex) :=
  [("btc", btc_re); ("bch", bch_re); ("ltc", ltc_re); ("zec", zec_re); ("eth", eth_re)].

(** ** Vocabulary: Error formatter *)

(** The error text mentions an indicator: it has it as a substring. *)
Definition mentions (indicator error : string) : Prop :=
  ∃ pre post, error = pre +:+ indicator +:+ post.

(** ** Vocabulary: Currency configuration *)

Definition supported : list string := ["btc"; "bch"; "ltc"; "zec"; "eth"].

(** ** Vocabulary: Request classifier *)

(** A wallet or cluster identifier key is present. *)
Definition cluster_key_present (properties : gmap string string) : Prop :=
  is_Some (properties !! "cryptocurrency.wallet.name")
  ∨ is_Some (properties !! "cluster_ID").

(** The raw identifier that the cluster branch parses. *)
Definition raw_identifier (properties : gmap string string) : option string :=
  py_or (properties !! "cryptocurrency.wallet.name") (properties !! "cluster_ID").

(** C2, as stated: an identifier that parses and a currency property that is
    present always give the identifier and the currency. *)
Definition cluster_branch_as_stated (properties : gmap string string) : Prop :=
  (PyInt.of_value (raw_identifier properties) = None →
   extract_address_and_currencies properties
     = (None, [], Some "Invalid Cluster/Wallet ID format (expected integer)"))
  ∧ (∀ n, PyInt.of_value (raw_identifier properties) = Some n →
     (properties !! "currency" = None →
      extract_address_and_currencies properties
        = (None, [], Some "Cluster found but currency is missing"))
     ∧ (∀ currency, properties !! "currency" = Some currency →
        extract_address_and_currencies properties
          = (Some (PyInt.to_string n), [currency], None))).

(** A cluster identifier with an empty currency property. *)
Definition empty_currency_request : gmap string string :=
  <["cluster_ID" := "12345"]> (<["currency" := ""]> ∅).

(** A request for cluster 12345 in btc. *)
Definition cluster_request : gmap string string :=
  <["cluster_ID" := "12345"]> (<["currency" := "btc"]> ∅).

(** The raw identifier parses as a non-negative integer. *)
Definition nonnegative_id (properties : gmap string string) : Prop :=
  ∃ n, PyInt.of_value (raw_identifier properties) = Some n ∧ (0 ≤ n)%Z.

(** C9, as stated: a cluster identifier is accepted only if it parses as a
    non-negative integer, and is rejected with an error otherwise. *)
Definition cluster_id_as_stated (properties : gmap string string) : Prop :=
  (∀ identifier currencies,
     extract_address_and_currencies properties = (Some identifier, currencies, None) →
     nonnegative_id properties)
  ∧ (¬ nonnegative_id properties →
     ∃ error, extract_address_and_currencies properties = (None, [], Some error)).

(** A negative cluster identifier. *)
Definition negative_id_request : gmap string string :=
  <["cluster_ID" := "-5"]> (<["currency" := "btc"]> ∅).

(** ** Vocabulary: Unsupported currencies *)

(** An address request that names a currency the configuration lacks. *)
Definition monero_request : gmap string string :=
  <["properties.cryptocurrencyaddress" := "44AFFq5kSiGBoZ"]> (<["currency" := "xmr"]> ∅).

(** ** Vocabulary: Updates through a reference *)

(** [m] returns normally and changes nothing but the entity behind [e],
    which it replaces by its image under [f]. *)
Definition updates (m : M unit) (e : ref)
    (f : MaltegoEntity → MaltegoEntity) : Prop :=
  ∀ r, m r = (Return tt, Response (alter f e (entities r)) (UIMessages r)).

(** ** Vocabulary: Common numeric properties *)

(** [ps] appended to the properties of an entity. *)
Definition add_properties (ps : list property) (x : MaltegoEntity) : MaltegoEntity :=
  Entity (entityType x) (entityValue x) (properties x ++ ps) (overlays x)
         (linkLabel x) (iconURL x) (displayInformation x) (weight x).

(** The properties that [_add_common_properties] records, in order. *)
Definition common_properties (d : record) (currency : string) : list property :=
  let factor :=
    match CURRENCY_CONFIG !! currency with
    | Some conf => conf_factor conf
    | None => e8
    end in
  [Property "final_balance" (Some ("Final balance (" +:+ currency +:+ ")")) None
     (VNum (truediv (amount_value (balance d)) factor))]
  ++ match fiat_values (balance d) with
     | fiat :: _ =>
         [Property "final_balance_fiat"
            (Some ("Final balance (" +:+ fiat_code fiat +:+ ")")) None
            (VNum (fiat_value fiat))]
     | [] => []
     end
  ++ [Property "total_received" (Some "Total received") None
        (VNum (truediv (amount_value (total_received d)) factor));
      Property "total_sent" (Some "Total sent") None
        (VNum (truediv (amount_value (total_spent d)) factor));
      Property "total_throughput" (Some "Total throughput") None
        (VNum (truediv (amount_value (total_received d) + amount_value (total_spent d))
                       factor));
      Property "num_transactions" (Some "Number of transactions") None
        (VInt (no_incoming_txs d + no_outgoing_txs d));
      Property "num_in_transactions" (Some "Number of incoming transactions") None
        (VInt (no_incoming_txs d));
      Property "num_out_transactions" (Some "Number of outgoing transactions") None
        (VInt (no_outgoing_txs d))]
  ++ match first_tx d with
     | Some t => [Property "First_tx" (Some "First transaction (UTC)") None
                    (VDate (timestamp t))]
     | None => []
     end
  ++ match last_tx d with
     | Some t => [Property "Last_tx" (Some "Last transaction (UTC)") None
                    (VDate (timestamp t))]
     | None => []
     end.

(** A cluster record holding 2.5 coins, and a response with one entity. *)
Definition sample_record : record :=
  Record_ None 77 12 (Amount 250000000 [Fiat "eur" (5 # 1)])
          (Amount 300000000 []) (Amount 50000000 []) 3 4
          (Some (Tx 1600000000)) None.


(** ** Vocabulary: Tag projection *)

(** [f] changes neither type, value, link label, icon nor overlays. *)
Definition same_header (f : MaltegoEntity → MaltegoEntity) : Prop :=
  ∀ x, entityType (f x) = entityType x
       ∧ entityValue (f x) = entityValue x
       ∧ linkLabel (f x) = linkLabel x
       ∧ iconURL (f x) = iconURL x
       ∧ overlays (f x) = overlays x.

(** [m] only annotates the entity behind [e]: it may add properties and
    display information and set the weight. *)
Definition annotates (m : M unit) (e : ref) : Prop :=
  ∃ f, updates m e f ∧ same_header f.

(** What the tags branch builds for one tag: an owner entity with the link
    label of the branch; its value is the label when the label is a
    non-empty string, and otherwise the undisclosed-contact text together
    with the icon URL "Unknown". *)
Definition owner_of (currency : string) (t : tag) (x : MaltegoEntity) : Prop :=
  entityType x = "maltego.CryptocurrencyOwner"
  ∧ linkLabel x = Some ("To tags [GraphSense] (" +:+ currency +:+ ")")
  ∧ overlays x = []
  ∧ if truthy_opt (getattr (label t) None)
    then entityValue x = fmt (getattr (label t) None) ∧ iconURL x = None
    else entityValue x
           = "Undisclosed, contact: " +:+ fmt (getattr (tagpack_creator t) (Some "Unknown"))
         ∧ iconURL x = Some "Unknown".

(** A tag with a label and a tag without one. *)
Definition labelled_tag : tag :=
  Tag (Val "Internet Archive") (Val "organization") (Val "https://archive.org")
      (Val "GraphSense Core Team") Absent Null (Val (VInt 50)).

Definition unlabelled_tag : tag :=
  Tag Null Absent Absent Absent Absent Absent Absent.

(** C8, as stated: a label that is present is the value of the entity. *)
Definition label_rule_as_stated (t : tag) (x : MaltegoEntity) : Prop :=
  (label t = Absent ∨ label t = Null →
   iconURL x = Some "Unknown"
   ∧ entityValue x
       = "Undisclosed, contact: " +:+ fmt (getattr (tagpack_creator t) (Some "Unknown")))
  ∧ (∀ l, label t = Val l → entityValue x = l).

(** A tag whose label is the empty string. *)
Definition empty_label_tag : tag :=
  Tag (Val "") Absent Absent Absent Absent Absent Absent.

(** ** Vocabulary: Cluster projection *)



(** ** Vocabulary: detection from entity details *)

(** No marker key of a host-typed entity is present. *)
Definition no_marker_key (entity_details : gmap string string) : Prop :=
  Forall (λ kc, entity_details !! fst kc = None) marker_keys.

(** A request typed as an Ethereum address by the host, holding a Bitcoin
    address. *)
Definition marked_request : gmap string string :=
  <["ETHAddress" := "x"]>
    (<["properties.cryptocurrencyaddress" := "1A1zP1eP5QGefi2DMPTfTL5SLmv7DivfNa"]> ∅).

(** A request with a marker key and no address. *)
Definition marker_only_request : gmap string string :=
  <["BTCAddress" := "x"]> (<["currency" := "btc"]> ∅).

(** ** Vocabulary: lengths and character sets of the patterns *)

(** The least number of characters a match of [r] spans. *)
Fixpoint min_len (r : regex) : nat :=
  match r with
  | Bound => 0
  | Chars _ => 1
  | Lit s => String.length s
  | Seq r1 r2 => min_len r1 + min_len r2
  | Alt r1 r2 => min_len r1 `min` min_len r2
  | Opt _ => 0
  | Rep r1 lo _ => lo * min_len r1
  end.

(** Every character of [s] satisfies [p]. *)
Fixpoint all_chars (p : ascii → bool) (s : string) : bool :=
  match s with
  | EmptyString => true
  | String c s' => p c && all_chars p s'
  end.

(** [0-9a-fA-F] *)
Definition hex_digit (c : ascii) : bool :=
  Str.in_ranges [("0","9"); ("a","f"); ("A","F")]%char c.

(** The character before the position reached after reading [s]. *)
Fixpoint last_char (prev : option ascii) (s : string) : option ascii :=
  match s with
  | EmptyString => prev
  | String c s' => last_char (Some c) s'
  end.

(** ** Vocabulary: the entities that the projector builds *)

(** The tag collection holds a tag: [address_tags] or [entity_tags] is a
    non-empty list. *)
Definition tagged (tags : tags_obj) : bool :=
  has_address_tags tags || has_entity_tags tags.

(** The overlay that marks a tagged entity. *)
Definition tagged_overlay (tags : tags_obj) : list overlay :=
  if tagged tags then [Overlay (VStr "Businessman") NORTH_WEST IMAGE] else [].

(** The entity of the "details" projection of a record. *)
Definition details_entity (d : record) (tags : tags_obj) (conf : profile)
    (currency : string) : MaltegoEntity :=
  match address d with
  | None =>
      Entity "maltego.CryptocurrencyWallet" (PyInt.to_string (entity d))
        (Property "num_addresses" (Some "Number of addresses") None
           (VInt (no_addresses d))
         :: common_properties d currency)
        (tagged_overlay tags) None None [] None
  | Some a =>
      Entity (conf_type conf) a
        (Property "currency" (Some "Currency") None (VStr currency)
         :: Property "cluster_ID" (Some "Cluster ID") (Some "loose") (VInt (entity d))
         :: common_properties d currency)
        (tagged_overlay tags) None None [] None
  end.

(** The entity of the "cluster" projection of a record. *)
Definition cluster_entity (d : record) (tags : tags_obj) (conf : profile)
    (currency : string) : MaltegoEntity :=
  Entity "maltego.CryptocurrencyWallet" (PyInt.to_string (entity d))
    (Property "cryptocurrency.wallet.name" None None
       (VStr (PyInt.to_string (entity d)))
     :: Property "cluster_ID" (Some "Cluster ID") None
          (VStr (PyInt.to_string (entity d)))
     :: Property "currency" (Some "Currency") (Some "strict") (VStr currency)
     :: Property "Number_addresses" (Some "Number of Addresses") None
          (VInt (no_addresses d))
     :: common_properties d currency)
    (Overlay (VInt (no_addresses d)) SOUTH_WEST TEXT
     :: Overlay (VStr (if String.eqb (Str.drop 8 (conf_type conf)) "ZECAddress"
                       then "zcash_icon_fullcolor"
                       else Str.drop 8 (conf_type conf))) WEST IMAGE
     :: tagged_overlay tags)
    (Some ("To Cluster [GraphSense] (" +:+ currency +:+ ")")) None [] None.

(** The property that [safe_add_prop] records, if any. *)
Definition optional_property (name : string) (v : option string)
    (matching : string) : list property :=
  match v with
  | Some s => [Property name (Some (Str.replace_char "_" " " name)) (Some matching)
                 (VStr s)]
  | None => []
  end.

(** The properties of the owner entity of a tag, in order. *)
Definition owner_properties (t : tag) : list property :=
  optional_property "OwnerType" (getattr (category t) None) "loose"
  ++ optional_property "Source_URI" (getattr (source t) None) "loose"
  ++ optional_property "tagpack_creator" (getattr (tagpack_creator t) None) "strict"
  ++ optional_property "tagpack_title" (getattr (tagpack_title t) None) "loose"
  ++ optional_property "Abuse_type" (getattr (abuse t) None) "loose"
  ++ optional_property "Category" (getattr (category t) None) "loose"
  ++ match getattr (confidence_level t) None with
     | Some conf_level =>
         [Property "Confidence_level" (Some "Confidence Level") (Some "loose")
            conf_level]
     | None => []
     end.

(** The hyperlink shown for a tag with a non-empty source. *)
Definition source_link (t : tag) : list (string * string) :=
  match getattr (source t) None with
  | Some (String a s) =>
      [("<a href=" +:+ dquote +:+ String a s +:+ dquote +:+ ">" +:+ String a s +:+ "</a>",
        "Source URI")]
  | _ => []
  end.

(** The weight of the owner entity: the confidence level as an integer,
    when there is one and [int] accepts it. *)
Definition owner_weight (t : tag) : option Z :=
  match getattr (confidence_level t) None with
  | Some conf_level => int_of_value conf_level
  | None => None
  end.

(** The owner entity of a tag. *)
Definition owner_entity (currency : string) (t : tag) : MaltegoEntity :=
  let label := getattr (label t) None in
  Entity "maltego.CryptocurrencyOwner"
    (if truthy_opt label then fmt label
     else "Undisclosed, contact: "
            +:+ fmt (getattr (tagpack_creator t) (Some "Unknown")))
    (owner_properties t) []
    (Some ("To tags [GraphSense] (" +:+ currency +:+ ")"))
    (if truthy_opt label then None else Some "Unknown")
    (source_link t) (owner_weight t).

(** The four query types of the projector. *)
Definition query_types : list string := ["details"; "cluster"; "tags"; "entity_tags"].

(** A tag with every optional field but the label, and a confidence level
    that is no number. *)
Definition odd_tag : tag :=
  Tag Absent (Val "exchange") (Val "https://example.org") (Val "Alice")
      (Val "Exchanges") (Val "") (Val (VStr "high")).

(** The optional text fields of a tag with the property each is recorded
    under and its matching rule. *)
Definition owner_fields : list (string * (tag → attr string) * string) :=
  [("OwnerType", category, "loose"); ("Source_URI", source, "loose");
   ("tagpack_creator", tagpack_creator, "strict");
   ("tagpack_title", tagpack_title, "loose"); ("Abuse_type", abuse, "loose");
   ("Category", category, "loose")].


(** No property name occurs twice. *)
Definition distinct_properties (x : MaltegoEntity) : Prop :=
  NoDup (fieldName <$> properties x).

(** An address record with a fiat valuation, of an address in a tagged
    cluster. *)
Definition valued_address : record :=
  Record_ (Some "1A1zP1eP5QGefi2DMPTfTL5SLmv7DivfNa") 77 12
          (Amount 250000000 [Fiat "eur" (5 # 1); Fiat "usd" (6 # 1)])
          (Amount 300000000 []) (Amount 50000000 []) 3 4
          (Some (Tx 1600000000)) None.

Definition address_tags_of_sample : tags_obj :=
  TagsObject (Val [labelled_tag]) Absent.

(** ** Vocabulary: what a transform does for one currency candidate *)





(** A backend that knows nothing: every lookup is answered with a 404. *)
Definition empty_backend : backend :=
  Backend (Returned tt)
    (λ _ _, ApiException "(404) Reason: Not Found")
    (λ _ _, ApiException "(404) Reason: Not Found")
    (λ _ _, ApiException "(404) Reason: Not Found")
    (λ _ _, ApiException "(404) Reason: Not Found").

(** A backend with one address and its cluster. *)
Definition sample_backend : backend :=
  Backend (Returned tt)
    (λ _ _, Returned valued_address)
    (λ _ _, Returned address_tags_of_sample)
    (λ _ _, Returned sample_record)
    (λ _ _, Returned (TagsObject Absent (Val [labelled_tag]))).

(** A request for the details of an address with no currency named. *)
Definition address_request : gmap string string :=
  <["properties.cryptocurrencyaddress" := "1A1zP1eP5QGefi2DMPTfTL5SLmv7DivfNa"]> ∅.






(** The notice of an address that the backend does not know. *)
Definition nothing_found (address currency : string) : string * UIMessageType :=
  (nl +:+ "Nothing found in " +:+ currency +:+ " for: " +:+ address +:+ nl,
   UIM_PARTIAL).

(** * Properties *)

(** ** Strings *)

Lemma append_nil_l (s : string) : "" +:+ s = s.
Proof. reflexivity. Qed.

Lemma append_cons (a : ascii) (s t : string) :
  String a s +:+ t = String a (s +:+ t).
Proof. reflexivity. Qed.

Lemma prefix_spec (p s : string) :
  String.prefix p s = true ↔ ∃ post, s = p +:+ post.
Proof.
  revert p. induction s as [|b s IH]; intros [|a p]; simpl.
  - split; [intros _; by exists "" | done].
  - split; [done | intros [post H]; discriminate H].
  - split; [intros _; by exists (String b s) | done].
  - destruct (Ascii.ascii_dec a b) as [->|Hne].
    + rewrite IH. split; intros [post H]; exists post.
      * rewrite append_cons. by f_equal.
      * rewrite append_cons in H. congruence.
    + split; [done | intros [post H]; rewrite append_cons in H; congruence].
Qed.

(** [contains] decides the substring relation. *)
Lemma contains_spec (needle hay : string) :
  Str.contains needle hay = true ↔ ∃ pre post, hay = pre +:+ needle +:+ post.
Proof.
  induction hay as [|c hay IH];
    cbn [Str.contains]; rewrite orb_true_iff, prefix_spec.
  - split.
    + intros [[post H]|H]; [|discriminate H]. exists "", post. exact H.
    + intros ([|a pre] & post & H); [left; by exists post | discriminate H].
  - rewrite IH. split.
    + intros [[post H]|(pre & post & ->)].
      * exists "", post. exact H.
      * exists (String c pre), post. reflexivity.
    + intros ([|a pre] & post & H).
      * left. by exists post.
      * right. exists pre, post. rewrite append_cons in H. congruence.
Qed.

(** ** Currency detector *)

Example detect_base58_34 :
  get_currency "1A1zP1eP5QGefi2DMPTfTL5SLmv7DivfNa" = (["btc"; "bch"], "").
Proof. by vm_compute. Qed.

Example detect_bech32 :
  get_currency "bc1qar0srrr7xfkvy5l643lydnw9re59gtzzwf5mdq" = (["btc"], "").
Proof. by vm_compute. Qed.

Example detect_litecoin :
  get_currency "LVg2kJoFNg45Nbpy53h7Fe1wKyeXVRhMH9" = (["bch"; "ltc"], "").
Proof. by vm_compute. Qed.

Example detect_zcash :
  get_currency "t1VJL2dPUyXK7avDRGqhqQA5bw2eEMdhyg6" = (["zec"], "").
Proof. by vm_compute. Qed.

Example detect_ethereum :
  get_currency "0x52908400098527886E0F7030069857D2E4169EE7" = (["eth"], "").
Proof. by vm_compute. Qed.

Example detect_nothing : get_currency "hello" = ([], "Currency not supported").
Proof. by vm_compute. Qed.

(** C1. For every address, [get_currency] returns exactly the currencies
    whose pattern is found, in the order btc, bch, ltc, zec, eth and without
    duplicates; the error is "Currency not supported" when the list is empty
    and the empty string otherwise; and the list is empty with a non-empty
    error if and only if none of the five patterns is found. *)
Theorem get_currency_spec (address : string) :
  let candidates := fst (get_currency address) in
  let error := snd (get_currency address) in
  candidates = fst <$> filter (λ p, search (snd p) address = true) patterns
  ∧ NoDup candidates
  ∧ (candidates = [] → error = "Currency not supported")
  ∧ (candidates ≠ [] → error = "")
  ∧ (candidates = [] ∧ error ≠ ""
     ↔ Forall (λ p, search (snd p) address = false) patterns).
Proof.
  unfold get_currency, patterns.
  rewrite !Forall_cons, Forall_nil, !filter_cons, filter_nil. cbn [snd fst].
  destruct (search btc_re address), (search bch_re address),
    (search ltc_re address), (search zec_re address), (search eth_re address);
    repeat case_decide; try discriminate; try congruence; cbn;
    (split; [reflexivity|]);
    (split; [apply (bool_decide_unpack _); vm_compute; exact I|]);
    intuition (try discriminate; try congruence).
Qed.

(** ** Error formatter *)

Lemma contains_false (needle hay : string) :
  Str.contains needle hay = false ↔ ¬ mentions needle hay.
Proof.
  unfold mentions. rewrite <- contains_spec.
  destruct (Str.contains needle hay); split; try done; intros H; by destruct H.
Qed.

(** C7. The formatter applies its substring rules in order: an error that
    mentions "504 Bad Gateway" gives the server-error message naming query
    type, currency and identifier; otherwise an error that mentions "(404)"
    gives the nothing-found message; otherwise the generic message.  The
    message is a function of its arguments, it is delivered as a partial
    notice, and for the same currency, query type and identifier the
    gateway-timeout and the not-found messages differ. *)
Theorem error_formatter_rules (currency query_type address error : string)
    (r : MaltegoTransform) :
  set_maltego_transformation_error currency query_type address error r
    = (Return tt,
       Response (entities r)
         (UIMessages r ++
            [(error_message currency query_type address error, UIM_PARTIAL)]))
  ∧ (mentions "504 Bad Gateway" error →
     error_message currency query_type address error
       = nl +:+ "GraphSense server 504 error during " +:+ query_type +:+ " for "
            +:+ currency +:+ " on " +:+ address +:+ nl)
  ∧ (¬ mentions "504 Bad Gateway" error → mentions "(404)" error →
     error_message currency query_type address error
       = nl +:+ "Nothing found in " +:+ currency +:+ " for: " +:+ address +:+ nl)
  ∧ (¬ mentions "504 Bad Gateway" error → ¬ mentions "(404)" error →
     error_message currency query_type address error
       = "Error (" +:+ currency +:+ "): " +:+ error)
  ∧ (∀ timeout missing : string,
       mentions "504 Bad Gateway" timeout →
       ¬ mentions "504 Bad Gateway" missing → mentions "(404)" missing →
       error_message currency query_type address timeout
         ≠ error_message currency query_type address missing).
Proof.
  unfold error_message. split; [reflexivity|].
  split; [|split; [|split]].
  - intros H%contains_spec. by rewrite H.
  - intros H1%contains_false H2%contains_spec. by rewrite H1, H2.
  - intros H1%contains_false H2%contains_false. by rewrite H1, H2.
  - intros timeout missing Ht%contains_spec Hm1%contains_false Hm2%contains_spec.
    rewrite Ht, Hm1, Hm2. unfold nl. rewrite !append_cons, !append_nil_l.
    discriminate.
Qed.

(** ** Currency configuration *)

Lemma config_lookup_None (currency : string) :
  currency ∉ supported → CURRENCY_CONFIG !! currency = None.
Proof.
  intros H. unfold CURRENCY_CONFIG, supported in *.
  rewrite !lookup_insert_ne by (intros <-; apply H; set_solver).
  apply lookup_empty.
Qed.


Lemma config_supported (currency : string) :
  currency ∈ supported ↔ is_Some (CURRENCY_CONFIG !! currency).
Proof.
  split.
  - unfold supported. intros H.
    repeat (apply elem_of_cons in H as [->|H]; [by eexists|]).
    by apply elem_of_nil in H.
  - intros [conf H]. destruct (decide (currency ∈ supported)) as [|Hn]; [done|].
    apply config_lookup_None in Hn. congruence.
Qed.

(** ** Integers and their decimal text *)

Lemma digits_char (d : N) (s : string) (acc : Z) (b : bool) :
  (d < 10)%N →
  PyInt.digits (String (pretty_N_char d) s) acc b
    = PyInt.digits s (10 * acc + Z.of_N d) true.
Proof.
  intros Hd.
  assert (d = 0 ∨ d = 1 ∨ d = 2 ∨ d = 3 ∨ d = 4 ∨ d = 5
          ∨ d = 6 ∨ d = 7 ∨ d = 8 ∨ d = 9)%N as Hcases by lia.
  repeat (destruct Hcases as [->|Hcases]; [reflexivity|]). by subst d.
Qed.

Lemma is_space_char (d : N) : PyInt.is_space (pretty_N_char d) = false.
Proof. unfold pretty_N_char. by repeat case_match. Qed.

Lemma pretty_N_go_head (x : N) (s : string) :
  (0 < x)%N →
  ∃ d rest, (d < 10)%N ∧ pretty_N_go x s = String (pretty_N_char d) rest.
Proof.
  revert s. induction (N.lt_wf_0 x) as [x _ IH]; intros s Hx.
  rewrite pretty_N_go_step by done.
  destruct (decide (x `div` 10 = 0)%N) as [->|Hq].
  - exists (x `mod` 10)%N, s. split; [by apply N.mod_lt|]. by rewrite pretty_N_go_0.
  - apply IH; [by apply N.div_lt | by apply N.neq_0_lt_0].
Qed.

Lemma digits_pretty_N_go (x : N) (s : string) :
  (0 < x)%N →
  ∃ k : nat, ∀ acc b,
    PyInt.digits (pretty_N_go x s) acc b
      = PyInt.digits s (acc * 10 ^ Z.of_nat k + Z.of_N x) true.
Proof.
  revert s. induction (N.lt_wf_0 x) as [x _ IH]; intros s Hx.
  rewrite pretty_N_go_step by done.
  pose proof (N.mod_lt x 10 ltac:(done)) as Hm.
  pose proof (N.div_mod x 10 ltac:(done)) as Hdm.
  destruct (decide (x `div` 10 = 0)%N) as [Hq|Hq].
  - exists 1%nat. intros acc b. rewrite Hq, pretty_N_go_0, digits_char by done.
    f_equal. lia.
  - destruct (IH (x `div` 10)%N ltac:(by apply N.div_lt)
                (String (pretty_N_char (x `mod` 10)) s)
                ltac:(by apply N.neq_0_lt_0)) as [k Hk].
    exists (S k). intros acc b. rewrite Hk, digits_char by done.
    f_equal. rewrite Nat2Z.inj_succ, Z.pow_succ_r by lia. lia.
Qed.

Lemma digits_positive (p : positive) :
  PyInt.digits (pretty (N.pos p)) 0 false = Some (Z.pos p).
Proof.
  unfold pretty, pretty_N. rewrite decide_False by done.
  destruct (digits_pretty_N_go (N.pos p) "" ltac:(done)) as [k ->]. reflexivity.
Qed.

Lemma pretty_negative (p : positive) :
  pretty (Z.neg p) = String "-" (pretty (N.pos p)).
Proof. reflexivity. Qed.

(** The decimal text of an integer parses back to it: an identifier that
    the classifier returns is accepted by [int] again. *)
Lemma of_string_to_string (n : Z) : PyInt.of_string (PyInt.to_string n) = Some n.
Proof.
  unfold PyInt.to_string. destruct n as [|p|p].
  - reflexivity.
  - change (pretty (Z.pos p)) with (pretty (N.pos p)).
    pose proof (digits_positive p) as Hp. revert Hp.
    unfold pretty, pretty_N. rewrite decide_False by done.
    destruct (pretty_N_go_head (N.pos p) "" ltac:(done)) as (d & rest & Hd & ->).
    unfold PyInt.of_string. cbn [PyInt.lstrip]. rewrite is_space_char.
    unfold pretty_N_char. by repeat case_match.
  - rewrite pretty_negative. unfold PyInt.of_string. cbn [PyInt.lstrip].
    change (PyInt.is_space "-") with false. cbv iota.
    by rewrite digits_positive.
Qed.

(** ** Request classifier *)

Example int_of_string :
  PyInt.of_string <$> ["12345"; " +12 "; "-5"; "1_000"; "007"; "abc"; ""; "1__0"; "12_"; "- 5"]
    = [Some 12345; Some 12; Some (-5); Some 1000; Some 7; None; None; None; None; None]%Z.
Proof. by vm_compute. Qed.

Example classify_invalid_id :
  extract_address_and_currencies (<["cluster_ID" := "abc"]> ∅)
    = (None, [], Some "Invalid Cluster/Wallet ID format (expected integer)").
Proof. by vm_compute. Qed.

Example classify_detects_ethereum :
  extract_address_and_currencies
    (<["properties.cryptocurrencyaddress" := "0x52908400098527886E0F7030069857D2E4169EE7"]> ∅)
    = (Some "0x52908400098527886E0F7030069857D2E4169EE7", ["eth"], None).
Proof. by vm_compute. Qed.

Lemma cluster_key_test (properties : gmap string string) :
  cluster_key_present properties →
  has_key "cryptocurrency.wallet.name" properties || has_key "cluster_ID" properties
    = true.
Proof.
  unfold cluster_key_present, has_key.
  intros [[v ->]|[v ->]]; [done|]. apply orb_true_r.
Qed.

Lemma no_cluster_key_test (properties : gmap string string) :
  properties !! "cryptocurrency.wallet.name" = None →
  properties !! "cluster_ID" = None →
  has_key "cryptocurrency.wallet.name" properties || has_key "cluster_ID" properties
    = false.
Proof. unfold has_key. by intros -> ->. Qed.

(** The cluster branch, case by case. *)
Lemma cluster_branch_cases (properties : gmap string string) :
  cluster_key_present properties →
  extract_address_and_currencies properties =
    match PyInt.of_value (raw_identifier properties) with
    | None => (None, [], Some "Invalid Cluster/Wallet ID format (expected integer)")
    | Some n =>
        if truthy_opt (properties !! "currency")
        then (Some (PyInt.to_string n), [default "" (properties !! "currency")], None)
        else (None, [], Some "Cluster found but currency is missing")
    end.
Proof.
  intros H%cluster_key_test. unfold extract_address_and_currencies, raw_identifier.
  rewrite H. destruct (PyInt.of_value _); [|done].
  destruct (properties !! "currency") as [c|]; [|done]. simpl.
  by destruct (Str.truthy c).
Qed.

(** An identifier accepted by the cluster branch is read back by [int] as
    the integer that was parsed. *)
Lemma accepted_identifier_reparses (properties : gmap string string)
    (identifier : string) (currencies : list string) (error : option string) :
  cluster_key_present properties →
  extract_address_and_currencies properties = (Some identifier, currencies, error) →
  PyInt.of_string identifier = PyInt.of_value (raw_identifier properties).
Proof.
  intros H. rewrite (cluster_branch_cases _ H).
  destruct (PyInt.of_value _) as [n|]; [|discriminate].
  destruct (truthy_opt _); [|discriminate].
  intros [= <- _ _]. apply of_string_to_string.
Qed.

(** C2, counterexample: the currency property is present but empty, and the
    classifier reports the currency as missing. *)
Lemma cluster_branch_empty_currency :
  cluster_key_present empty_currency_request
  ∧ extract_address_and_currencies empty_currency_request
      = (None, [], Some "Cluster found but currency is missing")
  ∧ ¬ cluster_branch_as_stated empty_currency_request.
Proof.
  split; [right; by eexists|]. split; [by vm_compute|].
  intros [_ H]. destruct (H 12345%Z) as [_ H']; [by vm_compute|].
  specialize (H' "" eq_refl). vm_compute in H'. discriminate H'.
Qed.

(** C2, amended. With a wallet or cluster identifier key present the cluster
    branch decides the result, whatever the address properties are: an
    identifier that does not parse as an integer gives the invalid-format
    error; otherwise a currency property that is absent or empty gives the
    currency-missing error; otherwise the result is the decimal text of the
    parsed integer, the one-element currency list, and no error. *)
Theorem cluster_branch (properties : gmap string string) :
  cluster_key_present properties →
  (PyInt.of_value (raw_identifier properties) = None →
   extract_address_and_currencies properties
     = (None, [], Some "Invalid Cluster/Wallet ID format (expected integer)"))
  ∧ (∀ n, PyInt.of_value (raw_identifier properties) = Some n →
     (properties !! "currency" = None ∨ properties !! "currency" = Some "" →
      extract_address_and_currencies properties
        = (None, [], Some "Cluster found but currency is missing"))
     ∧ (∀ currency, properties !! "currency" = Some currency → currency ≠ "" →
        extract_address_and_currencies properties
          = (Some (PyInt.to_string n), [currency], None)))
  ∧ extract_address_and_currencies cluster_request = (Some "12345", ["btc"], None).
Proof.
  intros H. rewrite (cluster_branch_cases _ H).
  split; [by intros ->|]. split; [|by vm_compute].
  intros n ->. split.
  - by intros [->| ->].
  - intros [|a c] -> Hne; done.
Qed.

Lemma cluster_branch_witness :
  cluster_key_present cluster_request
  ∧ extract_address_and_currencies cluster_request
      = (Some (PyInt.to_string 12345), ["btc"], None).
Proof.
  assert (Hkey : cluster_key_present cluster_request) by (right; by eexists).
  split; [exact Hkey|].
  destruct (cluster_branch cluster_request Hkey) as (_ & Hparsed & _).
  destruct (Hparsed 12345%Z) as [_ Hcurrency]; [by vm_compute|].
  apply Hcurrency; [by vm_compute | discriminate].
Defined.

(** C9, counterexample: the identifier "-5" parses as the integer -5 and is
    accepted. *)
Lemma cluster_id_negative_accepted :
  cluster_key_present negative_id_request
  ∧ extract_address_and_currencies negative_id_request = (Some "-5", ["btc"], None)
  ∧ ¬ cluster_id_as_stated negative_id_request.
Proof.
  split; [right; by eexists|]. split; [by vm_compute|].
  intros [H _]. destruct (H "-5" ["btc"]) as (n & Hn & Hpos); [by vm_compute|].
  vm_compute in Hn. injection Hn as <-. by apply Hpos.
Qed.

(** C9, amended. With a wallet or cluster identifier key present, an
    identifier is accepted and returned only if the raw identifier parses as
    an integer, of either sign, and the identifier returned is its decimal
    text; an identifier that does not parse as an integer is rejected with
    the invalid-format error. *)
Theorem cluster_id_is_integer (properties : gmap string string) :
  cluster_key_present properties →
  (∀ identifier currencies error,
     extract_address_and_currencies properties = (Some identifier, currencies, error) →
     ∃ n, PyInt.of_value (raw_identifier properties) = Some n
          ∧ identifier = PyInt.to_string n)
  ∧ (PyInt.of_value (raw_identifier properties) = None →
     extract_address_and_currencies properties
       = (None, [], Some "Invalid Cluster/Wallet ID format (expected integer)")).
Proof.
  intros H. rewrite (cluster_branch_cases _ H). split; [|by intros ->].
  intros identifier currencies error.
  destruct (PyInt.of_value _) as [n|]; [|discriminate].
  destruct (truthy_opt _); [|discriminate].
  intros [= <- _ _]. by exists n.
Qed.

Lemma cluster_id_is_integer_witness :
  cluster_key_present negative_id_request
  ∧ ∃ n, PyInt.of_value (raw_identifier negative_id_request) = Some n
         ∧ "-5" = PyInt.to_string n.
Proof.
  assert (Hkey : cluster_key_present negative_id_request) by (right; by eexists).
  split; [exact Hkey|].
  destruct (cluster_id_is_integer negative_id_request Hkey) as [Haccepted _].
  apply (Haccepted "-5" ["btc"] None). by vm_compute.
Defined.

(** ** Entity projector: early exits *)

(** C3. A lookup result that carries an error is passed through: whatever
    the record, the tag collection, the currency and the query type, the
    projector returns no entity and the same error, and the response is left
    as it was. *)
Theorem error_passed_through (obj : option record) (tags : tags_obj)
    (error currency query_type : string) (r : MaltegoTransform) :
  error ≠ "" →
  create_entity_with_details (obj, tags, error) currency query_type r
    = (Return (None, error), r).
Proof. intros H. destruct error; [done|reflexivity]. Qed.

Lemma error_passed_through_witness :
  "Unexpected error: timed out" ≠ ""
  ∧ create_entity_with_details
      (None, TagsList [], "Unexpected error: timed out") "btc" "cluster"
      (Response [] [])
    = (Return (None, "Unexpected error: timed out"), Response [] []).
Proof.
  split; [discriminate|].
  apply (error_passed_through None (TagsList []) _ "btc" "cluster"). discriminate.
Defined.

(** C10. For a currency outside the five configured codes the projector
    returns no entity and "Unsupported currency: <currency>" for every
    error-free result and every query type, and adds nothing to the
    response; yet the classifier hands the same currency through unchanged
    when a request for an address names it explicitly. *)
Theorem unsupported_currency_rejected (currency : string) :
  currency ∉ supported →
  (∀ obj tags query_type r,
     create_entity_with_details (obj, tags, "") currency query_type r
       = (Return (None, "Unsupported currency: " +:+ currency), r))
  ∧ (∀ (properties : gmap string string) (address : string),
       properties !! "cryptocurrency.wallet.name" = None →
       properties !! "cluster_ID" = None →
       properties !! "properties.cryptocurrencyaddress" = Some address →
       address ≠ "" →
       properties !! "currency" = Some currency →
       extract_address_and_currencies properties = (Some address, [currency], None)).
Proof.
  intros H%config_lookup_None. split.
  - intros obj tags query_type r. unfold create_entity_with_details.
    cbn [Str.truthy]. by rewrite H.
  - intros properties address Hw Hc Ha Hne Hcur.
    unfold extract_address_and_currencies.
    rewrite (no_cluster_key_test _ Hw Hc), Ha, Hcur.
    by destruct address.
Qed.

Lemma unsupported_currency_rejected_witness :
  ("xmr" ∉ supported)
  ∧ create_entity_with_details (None, TagsList [], "") "xmr" "details" (Response [] [])
      = (Return (None, "Unsupported currency: xmr"), Response [] [])
  ∧ extract_address_and_currencies monero_request
      = (Some "44AFFq5kSiGBoZ", ["xmr"], None).
Proof.
  assert (Hxmr : "xmr" ∉ supported).
  { unfold supported. rewrite !not_elem_of_cons. repeat split; try discriminate.
    apply not_elem_of_nil. }
  split; [exact Hxmr|].
  destruct (unsupported_currency_rejected "xmr" Hxmr) as [Hproject Hclassify].
  split.
  - apply Hproject.
  - apply Hclassify; try reflexivity. discriminate.
Defined.

(** ** Updates through a reference *)

Lemma updates_call (e : ref) (f : MaltegoEntity → MaltegoEntity) :
  updates (call e f) e f.
Proof. done. Qed.

Lemma updates_ret (e : ref) : updates (ret tt) e id.
Proof. intros [es ms]. unfold ret. cbn. by rewrite list_alter_id. Qed.

Lemma updates_seq (m1 m2 : M unit) (e : ref) (f1 f2 : MaltegoEntity → MaltegoEntity) :
  updates m1 e f1 → updates m2 e f2 → updates (m1 ;; m2) e (f2 ∘ f1).
Proof.
  intros H1 H2 r. unfold bind. rewrite H1, H2. cbn.
  by rewrite list_alter_alter_eq.
Qed.

Lemma updates_ext (m : M unit) (e : ref) (f g : MaltegoEntity → MaltegoEntity) :
  (∀ x, f x = g x) → updates m e f → updates m e g.
Proof.
  intros Hfg H r. rewrite H. do 2 f_equal. apply list_alter_ext; auto.
Qed.

Lemma alter_last {A} (f : A → A) (l : list A) (x : A) :
  alter f (length l) (l ++ [x]) = l ++ [f x].
Proof. by rewrite <- (Nat.add_0_r (length l)), alter_app_r. Qed.


(** Running a computation after [addEntity]. *)
Lemma bind_addEntity {B} (ty v : string) (k : ref → M B) (r : MaltegoTransform) :
  (ent <- addEntity ty v ;; k ent) r
    = k (length (entities r))
        (Response (entities r ++ [Entity ty v [] [] None None [] None]) (UIMessages r)).
Proof. done. Qed.

Lemma bind_updates {B} (m : M unit) (e : ref) (f : MaltegoEntity → MaltegoEntity)
    (k : unit → M B) (r : MaltegoTransform) :
  updates m e f →
  bind m k r = k tt (Response (alter f e (entities r)) (UIMessages r)).
Proof. intros H. unfold bind. by rewrite H. Qed.

(** ** Common numeric properties *)

Lemma add_properties_nil (x : MaltegoEntity) : add_properties [] x = x.
Proof. destruct x. unfold add_properties. cbn. by rewrite app_nil_r. Qed.

Lemma add_properties_app (ps qs : list property) (x : MaltegoEntity) :
  add_properties qs (add_properties ps x) = add_properties (ps ++ qs) x.
Proof. unfold add_properties. cbn. by rewrite app_assoc. Qed.

Lemma addProperty_add (name : string) (display matching : option string)
    (v : value) (x : MaltegoEntity) :
  addProperty name display matching v x
    = add_properties [Property name display matching v] x.
Proof. done. Qed.

(** [_add_common_properties] appends [common_properties] to the entity. *)
Lemma common_properties_run (e : ref) (d : record) (currency : string) :
  updates (_add_common_properties e d currency) e
          (add_properties (common_properties d currency)).
Proof.
  intros r. unfold _add_common_properties, common_properties, bind, call, ret.
  destruct (fiat_values (balance d)), (first_tx d), (last_tx d);
    cbv beta iota zeta; cbn [entities UIMessages];
    rewrite !list_alter_alter_eq; do 2 f_equal;
    (apply list_alter_ext; [|done]); intros x _; cbn [compose];
    rewrite !addProperty_add, !add_properties_app; reflexivity.
Qed.




(** In binary64 arithmetic too, 250000000 / 1e8 is exactly 2.5 = 5 * 2^-1. *)
Example binary64_display_value :
  binary64_truediv 250000000 (10 ^ 8) = binary64 5 (-1).
Proof. by vm_compute. Qed.



(** ** Tag projection *)

Lemma annotates_ret (e : ref) : annotates (ret tt) e.
Proof. exists id. split; [apply updates_ret | done]. Qed.

Lemma annotates_seq (m1 m2 : M unit) (e : ref) :
  annotates m1 e → annotates m2 e → annotates (m1 ;; m2) e.
Proof.
  intros (f1 & H1 & K1) (f2 & H2 & K2). exists (f2 ∘ f1).
  split; [by apply updates_seq|]. intros x. cbn [compose].
  destruct (K2 (f1 x)) as (-> & -> & -> & -> & ->). apply K1.
Qed.

Lemma annotates_addProperty (e : ref) (name : string)
    (display matching : option string) (v : value) :
  annotates (call e (addProperty name display matching v)) e.
Proof. eexists. split; [apply updates_call | done]. Qed.

Lemma annotates_addDisplayInformation (e : ref) (content title : string) :
  annotates (call e (addDisplayInformation content title)) e.
Proof. eexists. split; [apply updates_call | done]. Qed.

Lemma annotates_setWeight (e : ref) (w : Z) : annotates (call e (setWeight w)) e.
Proof. eexists. split; [apply updates_call | done]. Qed.

Lemma annotates_when (b : bool) (m : M unit) (e : ref) :
  annotates m e → annotates (when b m) e.
Proof. destruct b; [done|]. intros _. apply annotates_ret. Qed.

Lemma annotates_safe_add_prop (e : ref) (name : string) (v : option string)
    (matching : string) :
  annotates (safe_add_prop e name v matching) e.
Proof.
  destruct v; [apply annotates_addProperty | apply annotates_ret].
Qed.

Lemma annotates_run (m : M unit) (es : list MaltegoEntity) (x : MaltegoEntity)
    (ms : list (string * UIMessageType)) :
  annotates m (length es) →
  ∃ x', m (Response (es ++ [x]) ms) = (Return tt, Response (es ++ [x']) ms)
        ∧ entityType x' = entityType x
        ∧ entityValue x' = entityValue x
        ∧ linkLabel x' = linkLabel x
        ∧ iconURL x' = iconURL x
        ∧ overlays x' = overlays x.
Proof.
  intros (f & Hf & Hk). exists (f x). split; [|apply Hk].
  rewrite Hf. cbn [entities UIMessages]. by rewrite alter_last.
Qed.

Ltac annotate_tag :=
  repeat first
    [ apply annotates_seq
    | apply annotates_safe_add_prop
    | apply annotates_when
    | apply annotates_addProperty
    | apply annotates_addDisplayInformation
    | apply annotates_setWeight
    | apply annotates_ret
    | match goal with
      | |- annotates (match ?o with _ => _ end) _ => destruct o
      end ].

(** One iteration of the loop adds one entity to the response. *)
Lemma project_tag_run (currency : string) (t : tag) (r : MaltegoTransform) :
  ∃ x, project_tag currency t r
         = (Return tt, Response (entities r ++ [x]) (UIMessages r))
       ∧ owner_of currency t x.
Proof.
  destruct r as [es ms]. unfold project_tag, owner_of.
  destruct (truthy_opt (getattr (label t) None)).
  - rewrite bind_addEntity. cbn [entities UIMessages].
    erewrite bind_updates by apply updates_call.
    cbn [entities UIMessages]. rewrite alter_last.
    lazymatch goal with
    | |- ∃ x, ?m (Response (_ ++ [?x0]) _) = _ ∧ _ =>
        destruct (annotates_run m es x0 ms) as (x' & Hrun & Hty & Hval & Hlink & Hicon & Hov)
    end.
    { annotate_tag. }
    exists x'. split; [exact Hrun|]. by rewrite Hty, Hval, Hlink, Hicon, Hov.
  - unfold bind at 1. unfold bind at 1. unfold addEntity at 1.
    cbv beta iota. cbn [entities UIMessages].
    erewrite bind_updates by apply updates_call.
    cbn [entities UIMessages]. rewrite alter_last. unfold ret at 1. cbv beta iota.
    erewrite bind_updates by apply updates_call.
    cbn [entities UIMessages]. rewrite alter_last.
    lazymatch goal with
    | |- ∃ x, ?m (Response (_ ++ [?x0]) _) = _ ∧ _ =>
        destruct (annotates_run m es x0 ms) as (x' & Hrun & Hty & Hval & Hlink & Hicon & Hov)
    end.
    { annotate_tag. }
    exists x'. split; [exact Hrun|]. by rewrite Hty, Hval, Hlink, Hicon, Hov.
Qed.

(** The loop adds one owner entity per tag, in the order of the tags. *)
Lemma for_each_project_tag (currency : string) (ts : list tag) (r : MaltegoTransform) :
  ∃ xs, for_each ts (project_tag currency) r
          = (Return tt, Response (entities r ++ xs) (UIMessages r))
        ∧ Forall2 (owner_of currency) ts xs.
Proof.
  revert r. induction ts as [|t ts IH]; intros r.
  - exists []. destruct r. cbn. by rewrite app_nil_r.
  - destruct (project_tag_run currency t r) as (x & Hx & Hown).
    destruct (IH (Response (entities r ++ [x]) (UIMessages r))) as (xs & Hxs & Hall).
    exists (x :: xs). cbn [for_each]. unfold bind. rewrite Hx, Hxs.
    cbn [entities UIMessages]. rewrite <- app_assoc. split; [done|].
    by constructor.
Qed.


(** The tags branch of the projector. *)
Lemma project_tags_run (obj : option record) (tags : tags_obj)
    (currency query_type : string) (r : MaltegoTransform) :
  currency ∈ supported →
  query_type = "tags" ∨ query_type = "entity_tags" →
  create_entity_with_details (obj, tags, "") currency query_type r
    = project_tags tags currency r.
Proof.
  intros [conf Hconf]%config_supported Hq.
  unfold create_entity_with_details. cbn [Str.truthy]. rewrite Hconf.
  by destruct Hq as [-> | ->].
Qed.


Lemma btc_supported : "btc" ∈ supported.
Proof. unfold supported. rewrite elem_of_cons. by left. Qed.


(** C8, counterexample: the label is present but empty, and the entity gets
    the undisclosed-contact value instead of the label. *)
Lemma empty_label_falls_back :
  ∃ x, create_entity_with_details (None, TagsList [empty_label_tag], "") "btc" "tags"
         (Response [] [])
       = (Return (None, ""), Response [x] [])
     ∧ entityValue x = "Undisclosed, contact: Unknown"
     ∧ ¬ label_rule_as_stated empty_label_tag x.
Proof.
  eexists. split; [by vm_compute|]. split; [reflexivity|].
  intros [_ H]. specialize (H "" eq_refl). discriminate H.
Qed.

(** C8, amended. For a supported currency, every tag of the tags branch
    gets an owner entity at its own position among the new entities.  When
    the label is absent, null or empty, the value of the entity is
    "Undisclosed, contact: " followed by the tagpack creator, or by
    "Unknown" when the tag has no tagpack creator attribute, and the icon
    URL is set to "Unknown"; when the label is a non-empty string, the value
    is the label and no icon URL is set. *)
Theorem owner_entity_value (obj : option record) (tags : tags_obj)
    (currency query_type : string) (r : MaltegoTransform)
    (ts : list tag) (i : nat) (t : tag) :
  currency ∈ supported →
  query_type = "tags" ∨ query_type = "entity_tags" →
  extract_tags tags = Some ts →
  ts !! i = Some t →
  ∃ r' x,
    create_entity_with_details (obj, tags, "") currency query_type r
      = (Return (None, ""), r')
    ∧ entities r' !! (length (entities r) + i) = Some x
    ∧ entityType x = "maltego.CryptocurrencyOwner"
    ∧ (label t = Absent ∨ label t = Null ∨ label t = Val "" →
       iconURL x = Some "Unknown"
       ∧ (tagpack_creator t = Absent →
          entityValue x = "Undisclosed, contact: Unknown")
       ∧ (∀ creator, tagpack_creator t = Val creator →
          entityValue x = "Undisclosed, contact: " +:+ creator))
    ∧ (∀ l, label t = Val l → l ≠ "" → entityValue x = l ∧ iconURL x = None).
Proof.
  intros Hcur Hq Hts Ht. rewrite (project_tags_run _ _ _ _ _ Hcur Hq).
  unfold project_tags. rewrite Hts.
  destruct ts as [|t0 ts]; [done|].
  destruct (for_each_project_tag currency (t0 :: ts) r) as (xs & Hxs & Hall).
  destruct (Forall2_lookup_l _ _ _ _ _ Hall Ht) as (x & Hx & Hty & _ & _ & Hval).
  exists (Response (entities r ++ xs) (UIMessages r)), x.
  unfold bind. rewrite Hxs. split; [done|]. cbn [entities].
  split; [by rewrite lookup_app_r, Nat.add_comm, Nat.add_sub by lia|].
  split; [exact Hty|]. split.
  - intros Hl.
    assert (truthy_opt (getattr (label t) None) = false) as Hf
      by (by destruct Hl as [-> | [-> | ->]]).
    rewrite Hf in Hval. destruct Hval as [Hv Hi].
    split; [exact Hi|]. rewrite Hv. split; [by intros ->|].
    by intros creator ->.
  - intros l Hl Hne. rewrite Hl in Hval. cbn in Hval.
    by destruct l.
Qed.

Lemma owner_entity_value_witness :
  ("btc" ∈ supported)
  ∧ ("tags" = "tags" ∨ "tags" = "entity_tags")
  ∧ extract_tags (TagsList [labelled_tag; unlabelled_tag])
      = Some [labelled_tag; unlabelled_tag]
  ∧ [labelled_tag; unlabelled_tag] !! 1 = Some unlabelled_tag
  ∧ ∃ r' x,
      create_entity_with_details
        (None, TagsList [labelled_tag; unlabelled_tag], "") "btc" "tags" (Response [] [])
        = (Return (None, ""), r')
      ∧ entities r' !! 1 = Some x
      ∧ entityValue x = "Undisclosed, contact: Unknown"
      ∧ iconURL x = Some "Unknown".
Proof.
  split; [exact btc_supported|]. split; [by left|].
  split; [reflexivity|]. split; [reflexivity|].
  destruct (owner_entity_value None (TagsList [labelled_tag; unlabelled_tag])
              "btc" "tags" (Response [] []) [labelled_tag; unlabelled_tag] 1
              unlabelled_tag btc_supported (or_introl eq_refl) eq_refl eq_refl)
    as (r' & x & Hrun & Hx & _ & Hfallback & _).
  destruct Hfallback as (Hicon & Habsent & _); [right; by left|].
  exists r', x. split; [exact Hrun|]. split; [exact Hx|].
  split; [by apply Habsent | exact Hicon].
Defined.

(** ** Cluster projection *)

Lemma updates_when (b : bool) (m : M unit) (e : ref)
    (f : MaltegoEntity → MaltegoEntity) :
  updates m e f → updates (when b m) e (if b then f else id).
Proof. destruct b; [done|]. intros _. apply updates_ret. Qed.






(** * Further properties *)

(** ** Detection from entity details *)

Lemma has_key_false {V} (key : string) (d : gmap string V) :
  d !! key = None → has_key key d = false.
Proof. unfold has_key. by intros ->. Qed.

Lemma has_key_true {V} (key : string) (d : gmap string V) :
  is_Some (d !! key) → has_key key d = true.
Proof. unfold has_key. by intros [v ->]. Qed.

Lemma get_currency_candidates (address : string) :
  Forall (λ c, c ∈ supported) (fst (get_currency address))
  ∧ NoDup (fst (get_currency address))
  ∧ (fst (get_currency address) = [] ↔ snd (get_currency address) ≠ "")
  ∧ (snd (get_currency address) = ""
     ∨ snd (get_currency address) = "Currency not supported").
Proof.
  unfold get_currency, supported.
  destruct (search btc_re address), (search bch_re address),
    (search ltc_re address), (search zec_re address), (search eth_re address);
    cbn; (split; [repeat constructor; set_solver|]);
    (split; [apply (bool_decide_unpack _); vm_compute; exact I|]);
    (split; [split; intros; done | auto]).
Qed.

Lemma find_first {A} (p : A → bool) (l : list A) (i : nat) (x : A) :
  l !! i = Some x → p x = true →
  (∀ j y, j < i → l !! j = Some y → p y = false) →
  find p l = Some x.
Proof.
  revert i. induction l as [|z l IH]; intros [|i] Hi Hx Hfirst; try done.
  - injection Hi as ->. cbn. by rewrite Hx.
  - cbn. rewrite (Hfirst 0 z) by (done || lia).
    apply (IH i); [done..|]. intros j y Hj Hy. apply (Hfirst (S j)); [lia|done].
Qed.

(** X1. A marker key decides the currency without looking at the address:
    the result is the currency of the first marker key present, in the order
    BTCAddress, BCHAddress, LTCAddress, ZECAddress, ETHAddress, with no
    error. *)
Theorem marker_key_decides (entity_details : gmap string string)
    (i : nat) (key curr : string) :
  marker_keys !! i = Some (key, curr) →
  is_Some (entity_details !! key) →
  (∀ j key' curr', j < i → marker_keys !! j = Some (key', curr') →
                   entity_details !! key' = None) →
  get_currency_from_entity_details entity_details = ([curr], "").
Proof.
  intros Hi Hkey Hfirst. unfold get_currency_from_entity_details.
  rewrite (find_first _ _ i (key, curr)); [done|done|by apply has_key_true|].
  intros j [key' curr'] Hj Hm. apply has_key_false. by eapply Hfirst.
Qed.

Lemma marker_key_decides_witness :
  marker_keys !! 4 = Some ("ETHAddress", "eth")
  ∧ is_Some (marked_request !! "ETHAddress")
  ∧ get_currency_from_entity_details marked_request = (["eth"], "").
Proof.
  split; [reflexivity|]. split; [by eexists|].
  apply (marker_key_decides marked_request 4 "ETHAddress" "eth");
    [reflexivity | by eexists |].
  intros j key' curr' Hj Hm.
  do 4 (destruct j as [|j]; [injection Hm as <- _; reflexivity|]). lia.
Defined.

Lemma marker_currency_supported (p : string * string → bool) (key curr : string) :
  find p marker_keys = Some (key, curr) → curr ∈ supported.
Proof.
  intros [Hin _]%find_some. unfold marker_keys, supported in *. cbn in Hin.
  repeat (destruct Hin as [[= _ <-]|Hin]; [set_solver|]). done.
Qed.

Lemma detection_supported (entity_details : gmap string string) :
  Forall (λ c, c ∈ supported) (fst (get_currency_from_entity_details entity_details)).
Proof.
  unfold get_currency_from_entity_details.
  destruct (find _ marker_keys) as [[key curr]|] eqn:Hfind.
  - apply marker_currency_supported in Hfind. by constructor.
  - destruct (entity_details !! "properties.cryptocurrencyaddress") as [[|a s]|];
      cbn [Str.truthy fst]; [constructor| |constructor].
    apply get_currency_candidates.
Qed.

Lemma detection_empty_iff_error (entity_details : gmap string string) :
  fst (get_currency_from_entity_details entity_details) = []
  ↔ snd (get_currency_from_entity_details entity_details) ≠ "".
Proof.
  unfold get_currency_from_entity_details.
  destruct (find _ marker_keys) as [[key curr]|]; [done|].
  destruct (entity_details !! "properties.cryptocurrencyaddress") as [[|a s]|];
    cbn [Str.truthy fst snd]; [done| |done].
  apply get_currency_candidates.
Qed.

(** X2. Detection from entity details proposes only configured currencies,
    never the same one twice, and its candidate list is empty exactly when
    it reports an error; the error is then one of the two texts of the
    code. *)
Theorem detection_result_shape (entity_details : gmap string string) :
  let candidates := fst (get_currency_from_entity_details entity_details) in
  let error := snd (get_currency_from_entity_details entity_details) in
  Forall (λ c, c ∈ supported) candidates
  ∧ NoDup candidates
  ∧ (candidates = [] ↔ error ≠ "")
  ∧ (error = "" ∨ error = "Currency not supported"
     ∨ error = "No address or currency found in entity details").
Proof.
  cbn zeta. split; [apply detection_supported|].
  split; [|split; [apply detection_empty_iff_error|]].
  - unfold get_currency_from_entity_details.
    destruct (find _ marker_keys) as [[key curr]|]; [apply NoDup_singleton|].
    destruct (entity_details !! "properties.cryptocurrencyaddress") as [[|a s]|];
      cbn [Str.truthy fst]; [constructor| |constructor].
    apply get_currency_candidates.
  - unfold get_currency_from_entity_details.
    destruct (find _ marker_keys) as [[key curr]|]; [by left|].
    destruct (entity_details !! "properties.cryptocurrencyaddress") as [[|a s]|];
      cbn [Str.truthy snd]; auto.
    destruct (get_currency_candidates (String a s)) as (_ & _ & _ & [H|H]); auto.
Qed.

(** X3. Whatever the request, the classifier reports an error exactly when
    it returns no currency; an error text is never empty; and without an
    error there is an identifier. *)
Theorem classification_shape (properties : gmap string string) :
  let identifier := fst (fst (extract_address_and_currencies properties)) in
  let currencies := snd (fst (extract_address_and_currencies properties)) in
  let error := snd (extract_address_and_currencies properties) in
  (error = None ↔ currencies ≠ [])
  ∧ (∀ msg, error = Some msg → msg ≠ "")
  ∧ (error = None → is_Some identifier).
Proof.
  unfold extract_address_and_currencies.
  destruct (has_key _ _ || has_key _ _).
  - destruct (PyInt.of_value _); [|by cbn; split_and!; [split|intros ? [= <-]|]].
    destruct (properties !! "currency") as [[|a c]|]; cbn;
      split_and!; try split; try done; by intros ? [= <-].
  - destruct (properties !! "properties.cryptocurrencyaddress") as [[|a s]|]; cbn.
    1,3: split_and!; try split; try done; by intros ? [= <-].
    destruct (properties !! "currency") as [c|]; [by cbn; split_and!; try split|].
    pose proof (detection_empty_iff_error properties) as Hempty.
    destruct (get_currency_from_entity_details properties) as [cs err].
    cbn [fst snd] in *. destruct err as [|e0 err]; cbn.
    + split_and!; try done. split; [intros _|done]. intros Hcs.
      by apply Hempty in Hcs.
    + split_and!; try split; try done. by intros ? [= <-].
Qed.

(** X4. Without an explicit currency property every currency the classifier
    returns is one of the configured five. *)
Theorem detected_currencies_supported (properties : gmap string string) :
  properties !! "currency" = None →
  Forall (λ c, c ∈ supported)
         (snd (fst (extract_address_and_currencies properties))).
Proof.
  intros Hcur. unfold extract_address_and_currencies. rewrite Hcur.
  destruct (has_key _ _ || has_key _ _).
  - destruct (PyInt.of_value _); constructor.
  - destruct (properties !! "properties.cryptocurrencyaddress") as [[|a s]|]; cbn;
      [constructor| |constructor].
    pose proof (detection_supported properties) as Hsup.
    destruct (get_currency_from_entity_details properties) as [cs err].
    destruct (Str.truthy err); [constructor | exact Hsup].
Qed.

Lemma detected_currencies_supported_witness :
  marked_request !! "currency" = None
  ∧ Forall (λ c, c ∈ supported)
           (snd (fst (extract_address_and_currencies marked_request))).
Proof.
  split; [reflexivity|]. apply (detected_currencies_supported marked_request).
  reflexivity.
Defined.

(** X5. A request without a wallet or cluster identifier key and without a
    non-empty address property is rejected with "No cryptocurrency address
    found in properties", whatever currency or marker keys it carries. *)
Theorem missing_address_rejected (properties : gmap string string) :
  properties !! "cryptocurrency.wallet.name" = None →
  properties !! "cluster_ID" = None →
  properties !! "properties.cryptocurrencyaddress" = None
  ∨ properties !! "properties.cryptocurrencyaddress" = Some "" →
  extract_address_and_currencies properties
    = (None, [], Some "No cryptocurrency address found in properties").
Proof.
  intros Hw Hc Ha. unfold extract_address_and_currencies.
  rewrite (no_cluster_key_test _ Hw Hc). by destruct Ha as [-> | ->].
Qed.

Lemma missing_address_rejected_witness :
  marker_only_request !! "cryptocurrency.wallet.name" = None
  ∧ marker_only_request !! "cluster_ID" = None
  ∧ marker_only_request !! "properties.cryptocurrencyaddress" = None
  ∧ extract_address_and_currencies marker_only_request
      = (None, [], Some "No cryptocurrency address found in properties").
Proof.
  split; [reflexivity|]. split; [reflexivity|]. split; [reflexivity|].
  apply (missing_address_rejected marker_only_request); try reflexivity.
  by left.
Defined.

(** X6. In a request for an address without an explicit currency, a marker
    key of the host overrides the format of the address: the classifier
    returns the address with the currency of the first marker key present
    and does not consult the patterns. *)
Theorem marker_overrides_patterns (properties : gmap string string)
    (address : string) (i : nat) (key curr : string) :
  properties !! "cryptocurrency.wallet.name" = None →
  properties !! "cluster_ID" = None →
  properties !! "properties.cryptocurrencyaddress" = Some address →
  address ≠ "" →
  properties !! "currency" = None →
  marker_keys !! i = Some (key, curr) →
  is_Some (properties !! key) →
  (∀ j key' curr', j < i → marker_keys !! j = Some (key', curr') →
                   properties !! key' = None) →
  extract_address_and_currencies properties = (Some address, [curr], None).
Proof.
  intros Hw Hc Ha Hne Hcur Hi Hkey Hfirst. unfold extract_address_and_currencies.
  rewrite (no_cluster_key_test _ Hw Hc), Ha, Hcur.
  destruct address as [|a s]; [done|]. cbn [Str.truthy negb].
  unfold get_currency_from_entity_details.
  rewrite (find_first _ _ i (key, curr)); [done|done|by apply has_key_true|].
  intros j [key' curr'] Hj Hm. apply has_key_false. by eapply Hfirst.
Qed.

Lemma marker_overrides_patterns_witness :
  marked_request !! "cryptocurrency.wallet.name" = None
  ∧ marked_request !! "cluster_ID" = None
  ∧ marked_request !! "properties.cryptocurrencyaddress"
      = Some "1A1zP1eP5QGefi2DMPTfTL5SLmv7DivfNa"
  ∧ marked_request !! "currency" = None
  ∧ get_currency "1A1zP1eP5QGefi2DMPTfTL5SLmv7DivfNa" = (["btc"; "bch"], "")
  ∧ extract_address_and_currencies marked_request
      = (Some "1A1zP1eP5QGefi2DMPTfTL5SLmv7DivfNa", ["eth"], None).
Proof.
  split; [reflexivity|]. split; [reflexivity|]. split; [reflexivity|].
  split; [reflexivity|]. split; [by vm_compute|].
  apply (marker_overrides_patterns marked_request _ 4 "ETHAddress" "eth");
    try reflexivity; [discriminate | by eexists |].
  intros j key' curr' Hj Hm.
  do 4 (destruct j as [|j]; [injection Hm as <- _; reflexivity|]). lia.
Defined.

(** ** Lengths of matches *)

Lemma eat_lit_consumes (s : string) (c c' : cursor) :
  In c' (eat_lit s c) →
  String.length s + String.length (rest c') = String.length (rest c).
Proof.
  revert c. induction s as [|x s IH]; intros [prev t]; cbn.
  - intros [<-|[]]. done.
  - destruct t as [|a t]; [done|]. destruct (Ascii.eqb a x); [|done].
    intros H%IH. cbn in *. lia.
Qed.

Lemma times_consumes (step : cursor → list cursor) (m : nat) :
  (∀ c c', In c' (step c) → (m + String.length (rest c') ≤ String.length (rest c))%nat) →
  ∀ n cs c', In c' (times step n cs) →
    ∃ c, In c cs ∧ (n * m + String.length (rest c') ≤ String.length (rest c))%nat.
Proof.
  intros Hstep n. induction n as [|n IH]; intros cs c' Hin; cbn in Hin.
  - exists c'. split; [done|lia].
  - apply IH in Hin as (c1 & Hc1 & Hlen).
    apply in_flat_map in Hc1 as (c & Hc & Hc1). apply Hstep in Hc1.
    exists c. split; [done|lia].
Qed.

Lemma upto_consumes (step : cursor → list cursor) :
  (∀ c c', In c' (step c) → (String.length (rest c') ≤ String.length (rest c))%nat) →
  ∀ n cs c', In c' (upto step n cs) →
    ∃ c, In c cs ∧ (String.length (rest c') ≤ String.length (rest c))%nat.
Proof.
  intros Hstep n. induction n as [|n IH]; intros cs c' Hin; cbn in Hin.
  - by exists c'.
  - apply in_app_or in Hin as [Hin|Hin]; [by exists c'|].
    apply IH in Hin as (c1 & Hc1 & Hlen).
    apply in_flat_map in Hc1 as (c & Hc & Hc1). apply Hstep in Hc1.
    exists c. split; [done|lia].
Qed.

(** A match spans at least [min_len] characters. *)
Lemma run_consumes (r : regex) (c c' : cursor) :
  In c' (run r c) →
  (min_len r + String.length (rest c') ≤ String.length (rest c))%nat.
Proof.
  revert c c'. induction r as [|rs|s|r1 IH1 r2 IH2|r1 IH1 r2 IH2|r1 IH1|r1 IH1 lo hi];
    intros c c'; cbn [run min_len].
  - destruct (at_boundary c); [|done]. intros [<-|[]]. lia.
  - unfold eat_class. destruct c as [prev [|a t]]; cbn; [done|].
    destruct (Str.in_ranges rs a); [|done]. intros [<-|[]]. cbn. lia.
  - intros H%eat_lit_consumes. lia.
  - intros (c1 & H1 & H2)%in_flat_map. apply IH1 in H1. apply IH2 in H2. lia.
  - intros [H|H]%in_app_or; [apply IH1 in H | apply IH2 in H]; lia.
  - intros [H|[<-|[]]]%in_app_or; [apply IH1 in H|]; lia.
  - intros (c1 & H1 & Hlen1)%upto_consumes; cycle 1.
    { intros x y Hxy%IH1. lia. }
    apply (times_consumes _ (min_len r1)) in H1 as (c0 & [<-|[]] & Hlen0); [|done].
    lia.
Qed.

Lemma cursors_rest (prev : option ascii) (s : string) (c : cursor) :
  In c (cursors prev s) → (String.length (rest c) ≤ String.length s)%nat.
Proof.
  revert prev. induction s as [|a s IH]; intros prev; cbn.
  - intros [<-|[]]. done.
  - intros [<-|H%IH]; cbn; lia.
Qed.

(** A subject shorter than [min_len r] has no match of [r]. *)
Lemma search_min_len (r : regex) (s : string) :
  search r s = true → (min_len r ≤ String.length s)%nat.
Proof.
  unfold search. intros (c & Hc & Hm)%existsb_exists.
  apply cursors_rest in Hc. unfold matches_at in Hm.
  destruct (run r c) as [|c' l] eqn:Hrun; [done|].
  pose proof (run_consumes r c c') as H. rewrite Hrun in H.
  specialize (H (or_introl eq_refl)). lia.
Qed.

Lemma elem_of_candidates (address c : string) :
  c ∈ fst (get_currency address) ↔
    (c = "btc" ∧ search btc_re address = true)
    ∨ (c = "bch" ∧ search bch_re address = true)
    ∨ (c = "ltc" ∧ search ltc_re address = true)
    ∨ (c = "zec" ∧ search zec_re address = true)
    ∨ (c = "eth" ∧ search eth_re address = true).
Proof.
  unfold get_currency.
  destruct (search btc_re address), (search bch_re address),
    (search ltc_re address), (search zec_re address), (search eth_re address);
    cbn; rewrite ?elem_of_cons, elem_of_nil; intuition congruence.
Qed.

Lemma candidate_found (address c : string) :
  c ∈ fst (get_currency address) →
  ∃ r, (c, r) ∈ patterns ∧ search r address = true.
Proof.
  rewrite elem_of_candidates. unfold patterns.
  intros [[-> H]|[[-> H]|[[-> H]|[[-> H]|[-> H]]]]];
    (eexists; split; [|exact H]); rewrite !elem_of_cons; tauto.
Qed.

(** X7. An address is a candidate for a currency only if it is long enough
    for that currency's pattern: at least 11 characters for btc, 34 for bch,
    26 for ltc, 35 for zec and 40 for eth.  In particular an address of
    fewer than 11 characters, the empty one included, is never supported. *)
Theorem candidates_need_length (address : string) :
  ("btc" ∈ fst (get_currency address) → (11 ≤ String.length address)%nat)
  ∧ ("bch" ∈ fst (get_currency address) → (34 ≤ String.length address)%nat)
  ∧ ("ltc" ∈ fst (get_currency address) → (26 ≤ String.length address)%nat)
  ∧ ("zec" ∈ fst (get_currency address) → (35 ≤ String.length address)%nat)
  ∧ ("eth" ∈ fst (get_currency address) → (40 ≤ String.length address)%nat)
  ∧ ((String.length address < 11)%nat →
     get_currency address = ([], "Currency not supported")).
Proof.
  assert (Hmin : ∀ c n, (∀ r, (c, r) ∈ patterns → (n ≤ min_len r)%nat) →
                 c ∈ fst (get_currency address) → (n ≤ String.length address)%nat).
  { intros c n Hn (r & Hr & Hs)%candidate_found.
    apply search_min_len in Hs. specialize (Hn r Hr). lia. }
  assert (Hpat : ∀ c n, (c, n) ∈ [("btc", 11); ("bch", 34); ("ltc", 26);
                                   ("zec", 35); ("eth", 40)] →
                 ∀ r, (c, r) ∈ patterns → (n ≤ min_len r)%nat).
  { intros c n Hc r Hr. unfold patterns in Hr.
    rewrite !elem_of_cons, elem_of_nil in Hc.
    rewrite !elem_of_cons, elem_of_nil in Hr.
    destruct Hc as [[= -> ->]|[[= -> ->]|[[= -> ->]|[[= -> ->]|[[= -> ->]|[]]]]]];
      destruct Hr as [[= ->]|[[= ->]|[[= ->]|[[= ->]|[[= ->]|[]]]]]];
      try discriminate; vm_compute; lia. }
  assert (Hin : ∀ c n, (c, n) ∈ [("btc", 11); ("bch", 34); ("ltc", 26);
                                  ("zec", 35); ("eth", 40)] →
                c ∈ fst (get_currency address) → (n ≤ String.length address)%nat).
  { intros c n Hc. by apply Hmin, Hpat. }
  clear Hmin Hpat.
  split; [apply Hin; rewrite !elem_of_cons; tauto|].
  split; [apply Hin; rewrite !elem_of_cons; tauto|].
  split; [apply Hin; rewrite !elem_of_cons; tauto|].
  split; [apply Hin; rewrite !elem_of_cons; tauto|].
  split; [apply Hin; rewrite !elem_of_cons; tauto|].
  intros Hshort.
  assert (Hnil : fst (get_currency address) = []).
  { apply elem_of_nil_inv. intros c Hc. exfalso. pose proof Hc as Hc'.
    apply elem_of_candidates in Hc' as [[-> _]|[[-> _]|[[-> _]|[[-> _]|[-> _]]]]];
      eapply Hin in Hc; try (rewrite !elem_of_cons; tauto); lia. }
  clear Hin. unfold get_currency in *.
  destruct (append_if _ "eth" _); [done | discriminate Hnil].
Qed.

(** ** Canonical Ethereum addresses are detected *)

Lemma hex_digit_word (c : ascii) : hex_digit c = true → is_word c = true.
Proof.
  unfold hex_digit, is_word, Str.in_ranges, Str.between, Str.code. cbn [existsb fst snd].
  generalize (N_of_ascii c). intros n.
  change (N_of_ascii "0") with 48%N. change (N_of_ascii "9") with 57%N.
  change (N_of_ascii "a") with 97%N. change (N_of_ascii "f") with 102%N.
  change (N_of_ascii "z") with 122%N. change (N_of_ascii "A") with 65%N.
  change (N_of_ascii "F") with 70%N. change (N_of_ascii "Z") with 90%N.
  rewrite !orb_true_iff, !andb_true_iff, !N.leb_le. lia.
Qed.

Lemma last_char_word (p : ascii → bool) (prev : option ascii) (s : string) :
  (∀ c, p c = true → is_word c = true) →
  s ≠ "" → all_chars p s = true →
  ∃ c, last_char prev s = Some c ∧ is_word c = true.
Proof.
  intros Hp. revert prev. induction s as [|a s IH]; intros prev Hne Hall; [done|].
  cbn [all_chars] in Hall. apply andb_true_iff in Hall as [Ha Hs]. cbn [last_char].
  destruct s as [|b s]; [exists a; split; [done | by apply Hp]|]. by apply IH.
Qed.

(** Reading [n] characters of a class. *)
Lemma times_class (rs : list (ascii * ascii)) (s t : string) (prev : option ascii) :
  all_chars (Str.in_ranges rs) s = true →
  times (run (Chars rs)) (String.length s) [Cursor prev (s +:+ t)]
    = [Cursor (last_char prev s) t].
Proof.
  revert prev. induction s as [|a s IH]; intros prev Hall; [done|].
  cbn in Hall. apply andb_true_iff in Hall as [Ha Hs].
  cbn [String.length times flat_map run]. rewrite append_cons.
  unfold eat_class. cbn [rest]. rewrite Ha. cbn [app]. by apply IH.
Qed.

Lemma append_empty_r (s : string) : s +:+ "" = s.
Proof. induction s as [|a s IH]; [done|]. by rewrite append_cons, IH. Qed.

Lemma search_at_start (r : regex) (s : string) :
  matches_at r (Cursor None s) = true → search r s = true.
Proof.
  intros H. unfold search. destruct s; cbn [cursors existsb]; by rewrite H.
Qed.

Lemma hex40_tail (h : string) (prev : option ascii) :
  String.length h = 40 → all_chars hex_digit h = true →
  ∃ c, run (Rep hex 40 40) (Cursor prev h) = [Cursor (Some c) ""]
       ∧ is_word c = true.
Proof.
  intros Hlen Hall.
  destruct (last_char_word hex_digit prev h hex_digit_word) as (c & Hc & Hw);
    [by intros -> | done |].
  exists c. split; [|done].
  pose proof (times_class [("0","9"); ("a","f"); ("A","F")]%char h "" prev Hall) as Ht.
  rewrite append_empty_r, Hlen, Hc in Ht. exact Ht.
Qed.

Lemma run_seq (r1 r2 : regex) (c c1 c2 : cursor) :
  In c1 (run r1 c) → In c2 (run r2 c1) → In c2 (run (r1 ⋅ r2)%re c).
Proof. intros H1 H2. cbn [run]. apply in_flat_map. by exists c1. Qed.

Lemma run_bound (c : cursor) : at_boundary c = true → In c (run Bound c).
Proof. intros H. cbn [run]. rewrite H. by left. Qed.

Lemma matches_at_in (r : regex) (c c' : cursor) :
  In c' (run r c) → matches_at r c = true.
Proof. unfold matches_at. by destruct (run r c). Qed.

(** X8. Every string of forty hexadecimal digits, with or without the
    prefix "0x", is detected as an Ethereum address. *)
Theorem hex40_is_ethereum (h : string) :
  String.length h = 40 → all_chars hex_digit h = true →
  "eth" ∈ fst (get_currency h) ∧ "eth" ∈ fst (get_currency ("0x" +:+ h)).
Proof.
  intros Hlen Hall.
  assert (Hfirst : ∃ a s, h = String a s ∧ is_word a = true).
  { destruct h as [|a s]; [done|]. exists a, s. split; [done|].
    cbn [all_chars] in Hall. apply andb_true_iff in Hall as [Ha _].
    by apply hex_digit_word. }
  destruct Hfirst as (a & s & Hh & Ha).
  split; apply elem_of_candidates; do 4 right; (split; [done|]);
    apply search_at_start; unfold eth_re.
  - destruct (hex40_tail h None Hlen Hall) as (c & Hc & Hw).
    apply (matches_at_in _ _ (Cursor (Some c) "")).
    apply (run_seq _ _ _ (Cursor (Some c) ""));
      [|apply run_bound; unfold at_boundary, word_before, word_after;
        cbn [before rest]; by rewrite Hw].
    apply (run_seq _ _ _ (Cursor None h)); [|rewrite Hc; by left].
    apply (run_seq _ _ _ (Cursor None h)).
    + apply run_bound. rewrite Hh. unfold at_boundary, word_before, word_after.
      cbn [before rest]. by rewrite Ha.
    + cbn [run]. apply in_or_app. right. by left.
  - destruct (hex40_tail h (Some "x"%char) Hlen Hall) as (c & Hc & Hw).
    apply (matches_at_in _ _ (Cursor (Some c) "")).
    apply (run_seq _ _ _ (Cursor (Some c) ""));
      [|apply run_bound; unfold at_boundary, word_before, word_after;
        cbn [before rest]; by rewrite Hw].
    apply (run_seq _ _ _ (Cursor (Some "x"%char) h)); [|rewrite Hc; by left].
    rewrite !append_cons, append_nil_l.
    apply (run_seq _ _ _ (Cursor None (String "0" (String "x" h)))).
    + by apply run_bound.
    + cbn [run]. apply in_or_app. left. by left.
Qed.

Lemma hex40_is_ethereum_witness :
  String.length "52908400098527886E0F7030069857D2E4169EE7" = 40
  ∧ all_chars hex_digit "52908400098527886E0F7030069857D2E4169EE7" = true
  ∧ "eth" ∈ fst (get_currency "52908400098527886E0F7030069857D2E4169EE7")
  ∧ "eth" ∈ fst (get_currency "0x52908400098527886E0F7030069857D2E4169EE7").
Proof.
  split; [reflexivity|]. split; [reflexivity|].
  apply (hex40_is_ethereum "52908400098527886E0F7030069857D2E4169EE7"); reflexivity.
Defined.

(** ** The entities of the projector, exactly *)

Lemma updates_safe_add_prop (e : ref) (name : string) (v : option string)
    (matching : string) :
  updates (safe_add_prop e name v matching) e
          (add_properties (optional_property name v matching)).
Proof.
  destruct v as [s|]; [apply updates_call|].
  eapply updates_ext; [|apply updates_ret]. intros x. symmetry.
  apply add_properties_nil.
Qed.

Lemma truthy_eqb (s : string) : Str.truthy s = negb (String.eqb s "").
Proof. by destruct s. Qed.

(** The "cluster" branch adds [cluster_entity] and returns a reference to
    it. *)
Lemma project_cluster_run (d : record) (tags : tags_obj) (conf : profile)
    (currency : string) (r : MaltegoTransform) :
  project_cluster (Some d) tags conf currency r
    = (Return (Some (length (entities r)), ""),
       Response (entities r ++ [cluster_entity d tags conf currency]) (UIMessages r)).
Proof.
  unfold project_cluster, deref. unfold bind at 1. unfold ret at 1. cbv beta iota zeta.
  rewrite bind_addEntity.
  do 5 (erewrite bind_updates by apply updates_call; cbn [entities UIMessages]).
  erewrite bind_updates by apply common_properties_run. cbn [entities UIMessages].
  do 2 (erewrite bind_updates by apply updates_call; cbn [entities UIMessages]).
  erewrite bind_updates by apply updates_when, updates_call.
  cbn [entities UIMessages]. rewrite !alter_last. unfold ret.
  do 3 f_equal. unfold cluster_entity, tagged_overlay, tagged.
  by destruct (has_address_tags tags || has_entity_tags tags).
Qed.


(** The "details" branch adds [details_entity] and returns a reference to
    it. *)
Lemma project_details_run (d : record) (tags : tags_obj) (conf : profile)
    (currency : string) (r : MaltegoTransform) :
  project_details (Some d) tags conf currency r
    = (Return (Some (length (entities r)), ""),
       Response (entities r ++ [details_entity d tags conf currency]) (UIMessages r)).
Proof.
  unfold project_details, deref. unfold bind at 1. unfold ret at 1. cbv beta iota zeta.
  unfold details_entity, tagged_overlay, tagged.
  assert (Htag : (if has_address_tags tags then true
                  else if has_entity_tags tags then true else false)
                 = has_address_tags tags || has_entity_tags tags)
    by (by destruct (has_address_tags tags), (has_entity_tags tags)).
  rewrite Htag. clear Htag.
  destruct (address d) as [a|].
  - unfold bind at 1. rewrite bind_addEntity.
    do 2 (erewrite bind_updates by apply updates_call; cbn [entities UIMessages]).
    unfold ret at 1. cbv beta iota.
    erewrite bind_updates by apply common_properties_run. cbn [entities UIMessages].
    erewrite bind_updates by apply updates_when, updates_call.
    cbn [entities UIMessages]. rewrite !alter_last. unfold ret.
    do 3 f_equal.
    by destruct (has_address_tags tags || has_entity_tags tags).
  - unfold bind at 1. rewrite bind_addEntity.
    do 1 (erewrite bind_updates by apply updates_call; cbn [entities UIMessages]).
    unfold ret at 1. cbv beta iota.
    erewrite bind_updates by apply common_properties_run. cbn [entities UIMessages].
    erewrite bind_updates by apply updates_when, updates_call.
    cbn [entities UIMessages]. rewrite !alter_last. unfold ret.
    do 3 f_equal.
    by destruct (has_address_tags tags || has_entity_tags tags).
Qed.


Lemma source_when (t : tag) :
  hasattr (source t) && truthy_opt (getattr (source t) None)
    = match getattr (source t) None with Some (String _ _) => true | _ => false end.
Proof. by destruct (source t) as [| |[|a s]]. Qed.

(** One iteration of the tags loop adds [owner_entity]. *)
Lemma project_tag_exact (currency : string) (t : tag) (r : MaltegoTransform) :
  project_tag currency t r
    = (Return tt, Response (entities r ++ [owner_entity currency t]) (UIMessages r)).
Proof.
  unfold project_tag, owner_entity, owner_properties, source_link, owner_weight.
  rewrite source_when.
  destruct (truthy_opt (getattr (label t) None)).
  - rewrite bind_addEntity. cbn [entities UIMessages].
    erewrite bind_updates by apply updates_call. cbn [entities UIMessages].
    do 2 (erewrite bind_updates by apply updates_safe_add_prop;
          cbn [entities UIMessages]).
    erewrite bind_updates by apply updates_when, updates_call.
    cbn [entities UIMessages].
    do 4 (erewrite bind_updates by apply updates_safe_add_prop;
          cbn [entities UIMessages]).
    rewrite !alter_last.
    destruct (getattr (confidence_level t) None) as [v|].
    + erewrite bind_updates by apply updates_call. cbn [entities UIMessages].
      rewrite alter_last.
      destruct (int_of_value v) as [w|]; unfold call, ret;
        cbn [entities UIMessages]; rewrite ?alter_last; do 3 f_equal;
        destruct (getattr (source t) None) as [[|a s]|];
        cbv [id add_properties addProperty addDisplayInformation setLinkLabel
             setWeight setIconURL entityType entityValue properties overlays
             linkLabel iconURL displayInformation weight];
        cbn [fmt app];
        by rewrite <- ?app_assoc.
    + unfold ret. do 3 f_equal.
      destruct (getattr (source t) None) as [[|a s]|];
        cbv [id add_properties addProperty addDisplayInformation setLinkLabel
             setWeight setIconURL entityType entityValue properties overlays
             linkLabel iconURL displayInformation weight];
        cbn [fmt app];
        by rewrite <- ?app_assoc, ?app_nil_r.
  - unfold bind at 1. unfold bind at 1. unfold addEntity at 1.
    cbv beta iota. cbn [entities UIMessages].
    erewrite bind_updates by apply updates_call.
    cbn [entities UIMessages]. unfold ret at 1. cbv beta iota.
    erewrite bind_updates by apply updates_call. cbn [entities UIMessages].
    do 2 (erewrite bind_updates by apply updates_safe_add_prop;
          cbn [entities UIMessages]).
    erewrite bind_updates by apply updates_when, updates_call.
    cbn [entities UIMessages].
    do 4 (erewrite bind_updates by apply updates_safe_add_prop;
          cbn [entities UIMessages]).
    rewrite !alter_last.
    destruct (getattr (confidence_level t) None) as [v|].
    + erewrite bind_updates by apply updates_call. cbn [entities UIMessages].
      rewrite alter_last.
      destruct (int_of_value v) as [w|]; unfold call, ret;
        cbn [entities UIMessages]; rewrite ?alter_last; do 3 f_equal;
        destruct (getattr (source t) None) as [[|a s]|];
        cbv [id add_properties addProperty addDisplayInformation setLinkLabel
             setWeight setIconURL entityType entityValue properties overlays
             linkLabel iconURL displayInformation weight];
        cbn [fmt app];
        by rewrite <- ?app_assoc.
    + unfold ret. do 3 f_equal.
      destruct (getattr (source t) None) as [[|a s]|];
        cbv [id add_properties addProperty addDisplayInformation setLinkLabel
             setWeight setIconURL entityType entityValue properties overlays
             linkLabel iconURL displayInformation weight];
        cbn [fmt app];
        by rewrite <- ?app_assoc, ?app_nil_r.
Qed.

(** The tags loop adds the owner entities of the tags, in order. *)
Lemma for_each_project_tag_exact (currency : string) (ts : list tag)
    (r : MaltegoTransform) :
  for_each ts (project_tag currency) r
    = (Return tt,
       Response (entities r ++ (owner_entity currency <$> ts)) (UIMessages r)).
Proof.
  revert r. induction ts as [|t ts IH]; intros r.
  - destruct r. cbn. by rewrite app_nil_r.
  - cbn [for_each fmap list_fmap]. unfold bind. rewrite project_tag_exact, IH.
    cbn [entities UIMessages]. by rewrite <- app_assoc.
Qed.

Lemma response_unchanged (r : MaltegoTransform) :
  r = Response (entities r ++ []) (UIMessages r).
Proof. destruct r. cbn. by rewrite app_nil_r. Qed.




(** X10. For a configured currency and an error-free result, a query type
    other than "details", "cluster", "tags" and "entity_tags" is answered
    with "Unknown query type: <query type>", no entity, and the response
    left alone. *)
Theorem unknown_query_type (obj : option record) (tags : tags_obj)
    (currency query_type : string) (r : MaltegoTransform) :
  currency ∈ supported →
  query_type ∉ query_types →
  create_entity_with_details (obj, tags, "") currency query_type r
    = (Return (None, "Unknown query type: " +:+ query_type), r).
Proof.
  intros [conf Hconf]%config_supported Hq. unfold create_entity_with_details.
  cbn [Str.truthy]. rewrite Hconf. unfold query_types in Hq.
  rewrite !not_elem_of_cons in Hq. destruct Hq as (H1 & H2 & H3 & H4 & _).
  apply String.eqb_neq in H1, H2, H3, H4. by rewrite H1, H2, H3, H4.
Qed.

Lemma unknown_query_type_witness :
  ("btc" ∈ supported) ∧ ("balance" ∉ query_types)
  ∧ create_entity_with_details (None, TagsList [], "") "btc" "balance" (Response [] [])
      = (Return (None, "Unknown query type: balance"), Response [] []).
Proof.
  assert (Hq : "balance" ∉ query_types).
  { unfold query_types. rewrite !not_elem_of_cons. repeat split; try discriminate.
    apply not_elem_of_nil. }
  split; [exact btc_supported|]. split; [exact Hq|].
  apply (unknown_query_type None (TagsList []) "btc" "balance" _ btc_supported Hq).
Defined.

(** ** Properties of the entities *)

Lemma get_property_none (name : string) (x : MaltegoEntity) :
  Forall (λ p, fieldName p ≠ name) (properties x) → get_property name x = None.
Proof.
  unfold get_property. intros H.
  destruct (find _ _) as [p|] eqn:Hfind; [|done].
  apply find_some in Hfind as [Hin Heq]. apply in_rev in Hin.
  apply String.eqb_eq in Heq. rewrite Forall_forall in H.
  destruct (H p); [by apply list_elem_of_In | done].
Qed.


Lemma common_properties_distinct (d : record) (currency : string) (ps : list string) :
  NoDup ps →
  Forall (λ n, n ∈ ["currency"; "cluster_ID"; "num_addresses"; "Number_addresses";
                    "cryptocurrency.wallet.name"]) ps →
  NoDup (ps ++ (fieldName <$> common_properties d currency)).
Proof.
  intros Hps Hin. apply NoDup_app. split; [done|]. split.
  - intros n Hn Hc. rewrite Forall_forall in Hin. specialize (Hin n Hn).
    revert Hc. clear Hn. unfold common_properties.
    rewrite !elem_of_cons, elem_of_nil in Hin.
    destruct Hin as [->|[->|[->|[->|[->|[]]]]]];
      destruct (fiat_values (balance d)), (first_tx d), (last_tx d);
      apply (bool_decide_unpack _); by vm_compute.
  - unfold common_properties.
    destruct (fiat_values (balance d)), (first_tx d), (last_tx d);
      apply (bool_decide_unpack _); by vm_compute.
Qed.






Lemma owner_properties_distinct (t : tag) :
  NoDup (fieldName <$> owner_properties t).
Proof.
  unfold owner_properties, optional_property.
  destruct (getattr (category t) None), (getattr (source t) None),
    (getattr (tagpack_creator t) None), (getattr (tagpack_title t) None),
    (getattr (abuse t) None), (getattr (confidence_level t) None);
    apply (bool_decide_unpack _); by vm_compute.
Qed.

(** X13. No entity that the projector adds has a property recorded twice:
    whatever the result, the currency and the query type, the property
    names of every new entity are pairwise distinct. *)
Theorem properties_recorded_once (obj : option record) (tags : tags_obj)
    (error currency query_type : string) (r : MaltegoTransform) :
  ∃ new,
    snd (create_entity_with_details (obj, tags, error) currency query_type r)
      = Response (entities r ++ new) (UIMessages r)
    ∧ Forall distinct_properties new.
Proof.
  unfold create_entity_with_details.
  destruct error as [|a error]; cbn [Str.truthy];
    [|exists []; split; [apply response_unchanged | constructor]].
  destruct (CURRENCY_CONFIG !! currency) as [conf|];
    [|exists []; split; [apply response_unchanged | constructor]].
  destruct (String.eqb query_type "details").
  { destruct obj as [d|];
      [|exists []; split; [apply response_unchanged | constructor]].
    rewrite project_details_run. eexists. split; [reflexivity|].
    constructor; [|constructor]. unfold distinct_properties, details_entity.
    destruct (address d); cbn [properties fmap list_fmap fieldName].
    - apply (common_properties_distinct d currency ["currency"; "cluster_ID"]).
      + apply (bool_decide_unpack _). by vm_compute.
      + repeat constructor; rewrite !elem_of_cons; tauto.
    - apply (common_properties_distinct d currency ["num_addresses"]).
      + apply NoDup_singleton.
      + repeat constructor; rewrite !elem_of_cons; tauto. }
  destruct (String.eqb query_type "cluster").
  { destruct obj as [d|];
      [|exists []; split; [apply response_unchanged | constructor]].
    rewrite project_cluster_run. eexists. split; [reflexivity|].
    constructor; [|constructor]. unfold distinct_properties, cluster_entity.
    cbn [properties fmap list_fmap fieldName].
    apply (common_properties_distinct d currency
             ["cryptocurrency.wallet.name"; "cluster_ID"; "currency";
              "Number_addresses"]).
    - apply (bool_decide_unpack _). by vm_compute.
    - repeat constructor; rewrite !elem_of_cons; tauto. }
  destruct (String.eqb query_type "tags" || String.eqb query_type "entity_tags");
    [|exists []; split; [apply response_unchanged | constructor]].
  unfold project_tags. destruct (extract_tags tags) as [[|t ts]|].
  1,3: exists []; split; [apply response_unchanged | constructor].
  unfold bind. rewrite for_each_project_tag_exact. eexists. split; [reflexivity|].
  apply Forall_fmap, Forall_forall. intros t' _.
  apply owner_properties_distinct.
Qed.

(** The owner entity at the position of a tag. *)
Lemma owner_entity_at (obj : option record) (tags : tags_obj)
    (currency query_type : string) (r : MaltegoTransform)
    (ts : list tag) (i : nat) (t : tag) :
  currency ∈ supported →
  query_type = "tags" ∨ query_type = "entity_tags" →
  extract_tags tags = Some ts →
  ts !! i = Some t →
  ∃ r',
    create_entity_with_details (obj, tags, "") currency query_type r
      = (Return (None, ""), r')
    ∧ entities r' !! (length (entities r) + i) = Some (owner_entity currency t).
Proof.
  intros Hcur Hq Hts Ht. rewrite (project_tags_run _ _ _ _ _ Hcur Hq).
  unfold project_tags. rewrite Hts. destruct ts as [|t0 ts]; [done|].
  unfold bind. rewrite for_each_project_tag_exact. eexists. split; [reflexivity|].
  cbn [entities]. rewrite lookup_app_r, Nat.add_comm, Nat.add_sub by lia.
  by rewrite list_lookup_fmap, Ht.
Qed.

Lemma fmap_rev {A B} (f : A → B) (l : list A) : f <$> rev l = rev (f <$> l).
Proof.
  induction l as [|x l IH]; [done|]. cbn [rev fmap list_fmap].
  rewrite fmap_app, IH. done.
Qed.

Lemma get_property_distinct (x : MaltegoEntity) (p : property) :
  distinct_properties x → p ∈ properties x →
  get_property (fieldName p) x = Some p.
Proof.
  unfold distinct_properties, get_property.
  generalize (properties x). clear x. intros l Hnd Hin.
  assert (Hrev : NoDup (fieldName <$> rev l))
    by (by rewrite fmap_rev, <- Permutation_rev).
  assert (Hin' : p ∈ rev l).
  { apply list_elem_of_In. apply -> in_rev. by apply list_elem_of_In. }
  clear Hnd Hin. induction (rev l) as [|q k IH]; [by apply elem_of_nil in Hin'|].
  cbn in Hrev |- *. apply NoDup_cons in Hrev as [Hq Hk].
  apply elem_of_cons in Hin' as [->|Hin'].
  - by rewrite String.eqb_refl.
  - destruct (String.eqb (fieldName q) (fieldName p)) eqn:Heq; [|by apply IH].
    apply String.eqb_eq in Heq. destruct Hq. rewrite Heq.
    by apply list_elem_of_fmap_2.
Qed.

Lemma optional_property_names (name n : string) (v : option string) (m : string) :
  name ∈ fieldName <$> optional_property n v m → name = n ∧ is_Some v.
Proof.
  destruct v as [s|]; cbn.
  - intros ->%list_elem_of_singleton. by split.
  - by intros ?%elem_of_nil.
Qed.

(** X14. In the tags branch each optional text field of a tag (category,
    source, tagpack creator, tagpack title, abuse) is recorded on the tag's
    entity exactly when the tag has the field and it is not null: under its
    property name, displayed with underscores turned into blanks, with the
    field as value; the category is recorded both as OwnerType and as
    Category.  The confidence level is recorded the same way whatever its
    value. *)
Theorem owner_fields_recorded (obj : option record) (tags : tags_obj)
    (currency query_type : string) (r : MaltegoTransform)
    (ts : list tag) (i : nat) (t : tag) :
  currency ∈ supported →
  query_type = "tags" ∨ query_type = "entity_tags" →
  extract_tags tags = Some ts →
  ts !! i = Some t →
  ∃ r' x,
    create_entity_with_details (obj, tags, "") currency query_type r
      = (Return (None, ""), r')
    ∧ entities r' !! (length (entities r) + i) = Some x
    ∧ (∀ name field matching, (name, field, matching) ∈ owner_fields →
         get_property name x
           = (λ s, Property name (Some (Str.replace_char "_" " " name))
                     (Some matching) (VStr s))
             <$> getattr (field t) None)
    ∧ get_property "Confidence_level" x
        = Property "Confidence_level" (Some "Confidence Level") (Some "loose")
          <$> getattr (confidence_level t) None.
Proof.
  intros Hcur Hq Hts Ht.
  destruct (owner_entity_at obj tags currency query_type r ts i t Hcur Hq Hts Ht)
    as (r' & Hrun & Hx).
  exists r', (owner_entity currency t). split; [exact Hrun|]. split; [exact Hx|].
  assert (Hnd : distinct_properties (owner_entity currency t))
    by apply owner_properties_distinct.
  assert (Hsome : ∀ p, p ∈ owner_properties t →
            get_property (fieldName p) (owner_entity currency t) = Some p).
  { intros p Hp. by apply get_property_distinct. }
  assert (Hnone : ∀ name, name ∉ fieldName <$> owner_properties t →
            get_property name (owner_entity currency t) = None).
  { intros name Hn. apply get_property_none, Forall_forall. intros p Hp Heq.
    apply Hn. rewrite <- Heq. by apply list_elem_of_fmap_2. }
  clear Hrun Hx Hnd.
  assert (Hconf : ∀ name, name ≠ "Confidence_level" →
            name ∉ fieldName <$>
              match getattr (confidence_level t) None with
              | Some v => [Property "Confidence_level" (Some "Confidence Level")
                             (Some "loose") v]
              | None => []
              end).
  { intros name Hne. destruct (getattr (confidence_level t) None); cbn.
    - by intros ->%list_elem_of_singleton.
    - apply not_elem_of_nil. }
  split.
  - intros name field matching Hin. unfold owner_fields in Hin.
    rewrite !elem_of_cons, elem_of_nil in Hin.
    destruct Hin as [[= -> -> ->]|[[= -> -> ->]|[[= -> -> ->]|[[= -> -> ->]|
                    [[= -> -> ->]|[[= -> -> ->]|[]]]]]]];
      match goal with
      | |- _ = _ <$> getattr (?f t) None =>
          destruct (getattr (f t) None) as [s|] eqn:Hf
      end;
      cbn [fmap option_fmap option_map];
      first
        [ apply (Hsome (Property _ _ _ _)); unfold owner_properties; rewrite Hf;
          rewrite !elem_of_app; cbn [optional_property];
          rewrite !list_elem_of_singleton; intuition
        | apply Hnone; unfold owner_properties; rewrite Hf;
          rewrite !fmap_app, !not_elem_of_app; cbn [optional_property];
          split_and!;
          first [ apply not_elem_of_nil
                | by apply Hconf
                | by intros [? ?]%optional_property_names ] ].
  - destruct (getattr (confidence_level t) None) as [v|] eqn:Hf;
      cbn [fmap option_fmap option_map].
    + apply (Hsome (Property _ _ _ _)). unfold owner_properties. rewrite Hf.
      rewrite !elem_of_app, list_elem_of_singleton. intuition.
    + apply Hnone. unfold owner_properties. rewrite Hf.
      rewrite !fmap_app, !not_elem_of_app. split_and!;
        first [ apply not_elem_of_nil
              | by intros [? ?]%optional_property_names ].
Qed.

Lemma owner_fields_recorded_witness :
  ("btc" ∈ supported) ∧ ("tags" = "tags" ∨ "tags" = "entity_tags")
  ∧ extract_tags (TagsList [odd_tag]) = Some [odd_tag]
  ∧ [odd_tag] !! 0 = Some odd_tag
  ∧ ∃ r' x,
      create_entity_with_details (None, TagsList [odd_tag], "") "btc" "tags"
        (Response [] [])
        = (Return (None, ""), r')
      ∧ entities r' !! 0 = Some x
      ∧ get_property "Abuse_type" x
          = Some (Property "Abuse_type" (Some "Abuse type") (Some "loose") (VStr ""))
      ∧ get_property "Confidence_level" x
          = Some (Property "Confidence_level" (Some "Confidence Level") (Some "loose")
                    (VStr "high")).
Proof.
  split; [exact btc_supported|]. split; [by left|].
  split; [reflexivity|]. split; [reflexivity|].
  destruct (owner_fields_recorded None (TagsList [odd_tag]) "btc" "tags"
              (Response [] []) [odd_tag] 0 odd_tag btc_supported
              (or_introl eq_refl) eq_refl eq_refl)
    as (r' & x & Hrun & Hx & Hfields & Hconf).
  exists r', x. split; [exact Hrun|]. split; [exact Hx|]. split; [|exact Hconf].
  apply (Hfields "Abuse_type" abuse "loose"). unfold owner_fields.
  rewrite !elem_of_cons. tauto.
Defined.



(** ** Common properties: counts, dates and fiat value *)



(** ** Backend gateway *)




(** ** Transforms *)






(** An error of the classifier is never the empty text. *)
Lemma classifier_error_text (properties : gmap string string) (msg : string) :
  snd (extract_address_and_currencies properties) = Some msg → msg ≠ "".
Proof.
  unfold extract_address_and_currencies.
  destruct (has_key _ _ || has_key _ _).
  - destruct (PyInt.of_value _); [|by intros [= <-]].
    destruct (properties !! "currency") as [[|a c]|]; cbn; by intros [= <-].
  - destruct (properties !! "properties.cryptocurrencyaddress") as [[|a s]|]; cbn.
    1,3: by intros [= <-].
    destruct (properties !! "currency") as [c|]; [done|].
    destruct (get_currency_from_entity_details properties) as [cs [|b err]]; cbn;
      [done | by intros [= <-]].
Qed.




(** A rejected request: one informational notice, and nothing else. *)
Lemma rejected_run (api : backend) (properties : gmap string string)
    (msg : string) (r : MaltegoTransform) :
  snd (extract_address_and_currencies properties) = Some msg →
  ∀ run,
    run ∈ [ToCluster.create_entities api properties;
           ToTags.create_entities api properties;
           ToDetails.create_entities api properties] →
    run r = (None, Response (entities r) (UIMessages r ++ [(msg, UIM_INFORM)])).
Proof.
  intros Herr run Hrun. pose proof (classifier_error_text _ _ Herr) as Hne.
  repeat (apply elem_of_cons in Hrun as [->|Hrun]); [| | |by apply elem_of_nil in Hrun].
  all: unfold ToCluster.create_entities, ToTags.create_entities,
         ToDetails.create_entities.
  all: destruct (extract_address_and_currencies properties) as [[address cs] error].
  all: cbn [snd] in Herr; subst error; destruct msg as [|a msg]; [done|].
  all: by cbn [truthy_opt Str.truthy].
Qed.

(** X18. A request that the classifier rejects ends each transform at once:
    the error is shown in one informational notice, no entity is added, and
    the result does not depend on the backend. *)
Theorem rejected_request_informs (api : backend) (properties : gmap string string)
    (msg : string) (r : MaltegoTransform) :
  snd (extract_address_and_currencies properties) = Some msg →
  let informed :=
    (None, Response (entities r) (UIMessages r ++ [(msg, UIM_INFORM)])) in
  ToCluster.create_entities api properties r = informed
  ∧ ToTags.create_entities api properties r = informed
  ∧ ToDetails.create_entities api properties r = informed.
Proof.
  intros Herr informed.
  split_and!; apply (rejected_run api properties msg r Herr); set_solver.
Qed.

Lemma rejected_request_informs_witness :
  snd (extract_address_and_currencies marker_only_request)
    = Some "No cryptocurrency address found in properties"
  ∧ ToDetails.create_entities empty_backend marker_only_request (Response [] [])
      = (None,
         Response [] [("No cryptocurrency address found in properties", UIM_INFORM)]).
Proof.
  split; [reflexivity|].
  apply (rejected_request_informs empty_backend marker_only_request _
           (Response [] [])).
  reflexivity.
Defined.







(** A loop whose body reports every candidate. *)
Lemma for_currencies_reported (notice : string → string * UIMessageType)
    (body : string → T) (currencies : list string) (r : MaltegoTransform) :
  (∀ currency r', currency ∈ currencies →
     body currency r'
       = (None, Response (entities r') (UIMessages r' ++ [notice currency]))) →
  for_currencies currencies body r
    = (None, Response (entities r) (UIMessages r ++ (notice <$> currencies))).
Proof.
  revert r. induction currencies as [|c cs IH]; intros r Hbody.
  - destruct r. cbn. by rewrite app_nil_r.
  - cbn [for_currencies]. rewrite Hbody by apply list_elem_of_here.
    rewrite IH by (intros c' r' Hc'; apply Hbody; by apply list_elem_of_further).
    cbn [entities UIMessages fmap list_fmap]. by rewrite <- app_assoc.
Qed.

(** An indicator in an error stays one behind a prefix. *)
Lemma mentions_behind (indicator prefix error : string) :
  mentions indicator error → mentions indicator (prefix +:+ error).
Proof.
  intros (pre & post & ->). exists (prefix +:+ pre), post.
  induction prefix as [|a p IH]; [done|]. by rewrite !append_cons, IH.
Qed.

(** The prefix that the address lookup puts before the text of a backend
    fault adds no gateway-timeout indicator. *)
Lemma address_prefix_no_timeout (e : string) :
  Str.contains "504 Bad Gateway" ("GraphSense API error (Address): " +:+ e)
    = Str.contains "504 Bad Gateway" e.
Proof. reflexivity. Qed.

(** X22. When the backend answers the address lookup of every candidate
    with a fault whose text mentions "(404)" and no gateway timeout, each
    transform adds one nothing-found notice for each candidate, in order,
    naming the currency and the address, and no entity; the three transforms
    give the same response. *)
Theorem unknown_address_notices (api : backend) (properties : gmap string string)
    (address : string) (currencies : list string) (e : string)
    (r : MaltegoTransform) :
  extract_address_and_currencies properties = (Some address, currencies, None) →
  is_wallet properties = false →
  get_api_client api = Returned tt →
  (∀ currency, currency ∈ currencies →
     get_address api currency (Some address) = ApiException e) →
  mentions "(404)" e →
  ¬ mentions "504 Bad Gateway" e →
  let notified :=
    (None, Response (entities r)
             (UIMessages r ++ (nothing_found address <$> currencies))) in
  ToCluster.create_entities api properties r = notified
  ∧ ToTags.create_entities api properties r = notified
  ∧ ToDetails.create_entities api properties r = notified.
Proof.
  intros Hcls Hwallet Hclient Hfault Hmissing Htimeout notified. subst notified.
  assert (Hbody : ∀ query_type currency r', currency ∈ currencies →
            lift (report_or_project (get_address_details api currency (Some address))
                    currency query_type (Some address)) r'
              = (None, Response (entities r')
                         (UIMessages r' ++ [nothing_found address currency]))).
  { intros query_type currency r' Hin. unfold get_address_details.
    rewrite Hclient. cbn [and_then]. rewrite (Hfault _ Hin). cbn [and_then].
    unfold lift, report_or_project. rewrite append_cons. cbn [Str.truthy].
    rewrite <- append_cons.
    unfold set_maltego_transformation_error, addUIMessage, error_message,
      nothing_found.
    rewrite address_prefix_no_timeout.
    apply contains_false in Htimeout. rewrite Htimeout.
    apply (mentions_behind _ "GraphSense API error (Address): ") in Hmissing.
    apply contains_spec in Hmissing. by rewrite Hmissing. }
  unfold ToCluster.create_entities, ToTags.create_entities,
    ToDetails.create_entities. rewrite Hcls, Hwallet. cbn [truthy_opt].
  split_and!; apply for_currencies_reported; intros c r'; apply Hbody.
Qed.

Lemma unknown_address_notices_witness :
  ToDetails.create_entities empty_backend address_request (Response [] [])
    = (None,
       Response []
         [nothing_found "1A1zP1eP5QGefi2DMPTfTL5SLmv7DivfNa" "btc";
          nothing_found "1A1zP1eP5QGefi2DMPTfTL5SLmv7DivfNa" "bch"]).
Proof.
  apply (unknown_address_notices empty_backend address_request
           "1A1zP1eP5QGefi2DMPTfTL5SLmv7DivfNa" ["btc"; "bch"]
           "(404) Reason: Not Found" (Response [] [])).
  - by vm_compute.
  - by vm_compute.
  - reflexivity.
  - reflexivity.
  - by exists "", " Reason: Not Found".
  - apply contains_false. by vm_compute.
Defined.

(** X23. A currency without a profile that a request names explicitly is
    not turned down before the lookup: the backend is asked about it, and
    whatever it answers the transform adds no entity and one partial notice.
    When the lookup fails the notice reports its error; when it succeeds
    the notice reports "Unsupported currency: <currency>". *)
Theorem unsupported_currency_looked_up (api : backend)
    (properties : gmap string string) (address currency : string)
    (r : MaltegoTransform) :
  currency ∉ supported →
  is_wallet properties = false →
  extract_address_and_currencies properties = (Some address, [currency], None) →
  let error :=
    match get_address_details api currency (Some address) with
    | (_, _, "") => "Unsupported currency: " +:+ currency
    | (_, _, api_error) => api_error
    end in
  let reported (query_type : string) :=
    (None, Response (entities r)
             (UIMessages r ++ [(error_message currency query_type address error,
                                UIM_PARTIAL)])) in
  ToCluster.create_entities api properties r = reported "cluster"
  ∧ ToTags.create_entities api properties r = reported "tags"
  ∧ ToDetails.create_entities api properties r = reported "details".
Proof.
  intros Hc%config_lookup_None Hwallet Hcls error reported.
  subst error reported.
  unfold ToCluster.create_entities, ToTags.create_entities,
    ToDetails.create_entities. rewrite Hcls, Hwallet. cbn [truthy_opt for_currencies].
  unfold lift, report_or_project.
  destruct (get_address_details api currency (Some address))
    as [[obj tags] [|a api_error]]; cbn [Str.truthy].
  - unfold bind, create_entity_with_details. cbn [Str.truthy]. rewrite Hc.
    unfold ret. cbn [snd]. rewrite append_cons. by cbn [Str.truthy].
  - done.
Qed.

Lemma unsupported_currency_looked_up_witness :
  ToCluster.create_entities sample_backend monero_request (Response [] [])
    = (None, Response [] [("Error (xmr): Unsupported currency: xmr", UIM_PARTIAL)]).
Proof.
  apply (unsupported_currency_looked_up sample_backend monero_request
           "44AFFq5kSiGBoZ" "xmr" (Response [] [])).
  - apply (bool_decide_unpack _). by vm_compute.
  - by vm_compute.
  - by vm_compute.
Defined.



